(** * services/vector_db.py: ingestion, query and reset of the vector store

    A shallow embedding of [services/vector_db.py].  Python values are
    modelled as the code uses them: [int] as [Z], [str] as [string],
    lists as [list], the metadata [dict] as a [gmap string _].  The calls to
    the embedding service and to the Chroma client are external: they are
    fields of the class [Backend], and every function that reaches them runs
    in the state-and-exception monad [M]. *)

From stdpp Require Import base option list list_numbers strings pretty gmap.
From Stdlib Require Import ZArith Lia.

Local Open Scope string_scope.
Local Open Scope list_scope.
Local Open Scope Z_scope.

(** ** Python exceptions *)

(** The exceptions the module can see.  All of them derive from
    [Exception], so [except Exception] in [clear_db] catches each one. *)
Inductive Exn :=
| ValueError (msg : string)
| IndexError (msg : string)
| TypeError (msg : string)
| EmbeddingError (msg : string)
| StoreError (msg : string).

(** A computation that either raises or returns. *)
Definition Res (A : Type) : Type := Exn + A.

Definition res_bind {A B} (r : Res A) (k : A -> Res B) : Res B :=
  match r with
  | inl e => inl e
  | inr a => k a
  end.

(** ** Python built-ins used by the module *)

Module Py.

(** [len(l)] *)
Definition len {A} (l : list A) : Z := Z.of_nat (length l).

(** Number of elements of [range(lo, hi, step)] for [step <> 0]
    (CPython's [compute_range_length]). *)
Definition range_length (lo hi step : Z) : Z :=
  if (0 <? step) && (lo <? hi) then 1 + (hi - 1 - lo) / step
  else if (step <? 0) && (hi <? lo) then 1 + (lo - 1 - hi) / (- step)
  else 0.

(** [range(start, stop, step)], iterated; a zero step raises [ValueError]. *)
Definition range (start stop step : Z) : Res (list Z) :=
  if step =? 0 then inl (ValueError "range() arg 3 must not be zero")
  else inr ((fun k => start + k * step) <$> seqZ 0 (range_length start stop step)).

(** Bound adjustment of a slice with step 1 ([PySlice_AdjustIndices]). *)
Definition slice_index (n i : Z) : Z :=
  if i <? 0 then Z.max 0 (i + n) else Z.min i n.

(** [l[i:j]] *)
Definition slice {A} (l : list A) (i j : Z) : list A :=
  let lo := slice_index (len l) i in
  let hi := slice_index (len l) j in
  take (Z.to_nat (hi - lo)) (drop (Z.to_nat lo) l).

(** [l[i]], raising [IndexError] out of range. *)
Definition getitem {A} (l : list A) (i : Z) : Res A :=
  let j := if i <? 0 then i + len l else i in
  if j <? 0 then inl (IndexError "list index out of range")
  else match l !! Z.to_nat j with
       | Some x => inr x
       | None => inl (IndexError "list index out of range")
       end.

(** [sep.join(parts)] *)
Fixpoint join (sep : string) (parts : list string) : string :=
  match parts with
  | [] => ""
  | [p] => p
  | p :: rest => p +:+ sep +:+ join sep rest
  end.

End Py.

(** ** Tables *)

(** A cell of a row.  [NA] stands for every value [pd.notna] rejects
    ([None], [NaN], [NaT]); [VOther] carries a non-missing value of any
    other type (a float, a timestamp) by the text [str] gives for it. *)
Inductive Scalar :=
| NA
| VStr (s : string)
| VInt (z : Z)
| VBool (b : bool)
| VOther (repr : string).

(** A [pd.DataFrame] as [iterrows] presents it: the column labels and, per
    row, the index label with the row's cells.  Index labels are integers;
    [IndexedFrame] below admits the others. *)
Record DataFrame := {
  columns : list string;
  rows : list (Z * list Scalar)
}.

Definition iterrows (df : DataFrame) : list (Z * list Scalar) := rows df.

(** The frame [pd.read_csv] and [pd.DataFrame(dict)] build: a default
    [RangeIndex] 0, 1, ..., n-1 over the data rows. *)
Definition default_frame (cols : list string) (data : list (list Scalar)) : DataFrame :=
  {| columns := cols; rows := zip (seqZ 0 (Py.len data)) data |}.

(** [pd.notna(val)] *)
Definition notna (v : Scalar) : bool :=
  match v with
  | NA => false
  | _ => true
  end.

(** [str(val)]; for [NA] the text of [NaN], which [row_values] never asks
    for. *)
Definition str (v : Scalar) : string :=
  match v with
  | NA => "nan"
  | VStr s => s
  | VInt z => pretty z
  | VBool true => "True"
  | VBool false => "False"
  | VOther r => r
  end.

(** ** Document Builder (first loop of [add_df_to_db_async]) *)

(** Values stored in a metadata dict. *)
Inductive MetaVal :=
| MStr (s : string)
| MInt (z : Z).

Abbreviation Metadata := (gmap string MetaVal).

(** [[str(val) if pd.notna(val) else "" for val in row]] *)
Definition row_values (row : list Scalar) : list string :=
  (fun val => if notna val then str val else "") <$> row.

(** [", ".join([f"{col}: {val}" for col, val in zip(df.columns, row_values)])] *)
Definition row_text (cols : list string) (row : list Scalar) : string :=
  Py.join ", " ((fun cv => fst cv +:+ ": " +:+ snd cv) <$> zip cols (row_values row)).

(** [f"{source_name}_row{i}"] *)
Definition doc_id (source_name : string) (i : Z) : string :=
  source_name +:+ "_row" +:+ pretty i.

(** [{"source": source_name, "row": int(i)}]; on an integer label [int(i)]
    is the label.  Labels of other types are those of [IndexedFrame]. *)
Definition doc_meta (source_name : string) (i : Z) : Metadata :=
  {[ "source" := MStr source_name; "row" := MInt i ]}.

(** The three parallel lists the first loop fills. *)
Definition build_docs (df : DataFrame) : list string :=
  (fun ir => row_text (columns df) (snd ir)) <$> iterrows df.

Definition build_ids (df : DataFrame) (source_name : string) : list string :=
  (fun ir => doc_id source_name (fst ir)) <$> iterrows df.

Definition build_metas (df : DataFrame) (source_name : string) : list Metadata :=
  (fun ir => doc_meta source_name (fst ir)) <$> iterrows df.

(** ** Batch Partitioner (the slices of both batch loops) *)

(** [[l[i:i + batch_size] for i in range(0, len(l), batch_size)]] *)
Definition batches {A} (l : list A) (batch_size : Z) : Res (list (list A)) :=
  res_bind (Py.range 0 (Py.len l) batch_size)
    (fun starts => inr ((fun i => Py.slice l i (i + batch_size)) <$> starts)).

(** ** External services *)

(** Arguments of one [collection.add(ids=, documents=, embeddings=,
    metadatas=)] call. *)
Record AddArgs (E : Type) := {
  a_ids : list string;
  a_documents : list string;
  a_embeddings : list E;
  a_metadatas : list Metadata
}.
Arguments a_ids {E} _.
Arguments a_documents {E} _.
Arguments a_embeddings {E} _.
Arguments a_metadatas {E} _.

(** A key of the dict [collection.query] returns: missing, bound to [None],
    or bound to a value. *)
Inductive DictField (A : Type) :=
| Absent
| PyNone
| Value (v : A).
Arguments Absent {A}.
Arguments PyNone {A}.
Arguments Value {A} v.

(** The raw result of [collection.query]: outer lists are indexed by query,
    inner lists by rank; a metadata entry is [None] for a hit stored
    without metadata. *)
Record QueryResult := {
  q_documents : DictField (list (list string));
  q_metadatas : DictField (list (list (option Metadata)))
}.

(** What the module calls and does not define: [genai.embed_content],
    [genai.embed_content_async] (each already projected on ["embedding"]),
    the Chroma client and its collections.  [Client] is the state of the
    persistent client, [Handle] a collection object.  A call that raises
    leaves the client state as it was.  The asynchronous embedding call
    takes the batch index, so that two calls on equal texts may differ. *)
Class Backend := {
  Embedding : Type;
  Client : Type;
  Handle : Type;
  embed_content : string -> Res Embedding;
  embed_content_async : nat -> list string -> Res (list Embedding);
  delete_collection : string -> Client -> Res Client;
  get_or_create_collection : string -> Client -> Res (Handle * Client);
  collection_add : Handle -> AddArgs Embedding -> Client -> Res Client;
  collection_query : Handle -> list Embedding -> Z -> Client -> Res QueryResult
}.

(** Lines written by [print]. *)
Inductive Message :=
| MsgStartEmbedding (n_batches : nat)
| MsgEmbeddingsDone
| MsgAddedBatch (number : Z)
| MsgTotalAdded (n_rows : nat) (source_name : string)
| MsgResetDone
| MsgResetFailed (e : Exn).

(** A hit of [query_db]: the dict [{"text":, "source":, "row":}]; [None]
    is Python's [None]. *)
Record Hit := {
  text : string;
  source : option MetaVal;
  row : option MetaVal
}.

(** What the process does that an observer sees, in order: calls issued to
    the store (recorded when issued, whatever their outcome) and printed
    lines.  [E] is the type of embeddings. *)
Inductive EventOf (E : Type) :=
| EvAdd (args : AddArgs E)
| EvQuery (q : list E) (n_results : Z)
| EvDelete (name : string)
| EvGetOrCreate (name : string)
| EvPrint (m : Message).
Arguments EvAdd {E} args.
Arguments EvQuery {E} q n_results.
Arguments EvDelete {E} name.
Arguments EvGetOrCreate {E} name.
Arguments EvPrint {E} m.

(** Module state: [chroma_client], the global [collection], and the
    history of events. *)
Record WorldOf (C H E : Type) := {
  client : C;
  collection : H;
  trace : list (EventOf E)
}.
Arguments client {C H E} _.
Arguments collection {C H E} _.
Arguments trace {C H E} _.
Arguments Build_WorldOf {C H E} _ _ _.

Abbreviation Event := (EventOf Embedding).
Abbreviation World := (WorldOf Client Handle Embedding).

Section Service.
Context {BE : Backend}.

(** ** The state-and-exception monad *)

(** A raise keeps the state reached so far. *)
Definition M (A : Type) : Type := World -> Res A * World.

Definition ret {A} (a : A) : M A := fun w => (inr a, w).

Definition raise {A} (e : Exn) : M A := fun w => (inl e, w).

Definition bind {A B} (m : M A) (k : A -> M B) : M B :=
  fun w => match m w with
           | (inl e, w') => (inl e, w')
           | (inr a, w') => k a w'
           end.

Definition lift {A} (r : Res A) : M A := fun w => (r, w).

(** [try: body except Exception as e: handler(e)] *)
Definition try_except {A} (body : M A) (handler : Exn -> M A) : M A :=
  fun w => match body w with
           | (inl e, w') => handler e w'
           | (inr a, w') => (inr a, w')
           end.

Definition emit (ev : Event) : M unit :=
  fun w => (inr tt, {| client := client w; collection := collection w;
                        trace := trace w ++ [ev] |}).

Definition print (m : Message) : M unit := emit (EvPrint m).

(** A call on the client state: the state changes only when it returns. *)
Definition on_client {A} (f : Client -> Res (A * Client)) : M A :=
  fun w => match f (client w) with
           | inl e => (inl e, w)
           | inr (a, c) => (inr a, {| client := c; collection := collection w;
                                       trace := trace w |})
           end.

Definition get_collection : M Handle := fun w => (inr (collection w), w).

Definition set_collection (h : Handle) : M unit :=
  fun w => (inr tt, {| client := client w; collection := h; trace := trace w |}).

End Service.

Declare Scope py_scope.
Delimit Scope py_scope with py.
Notation "x <- m ;; k" := (bind m (fun x => k))
  (at level 100, m at next level, right associativity) : py_scope.
Notation "m ;;; k" := (bind m (fun _ => k))
  (at level 100, right associativity) : py_scope.

Section Program.
Context {BE : Backend}.
Local Open Scope py_scope.

(** [for x in l: body(x)] *)
Fixpoint for_each {A} (l : list A) (body : A -> M unit) : M unit :=
  match l with
  | [] => ret tt
  | x :: rest => body x ;;; for_each rest body
  end.

(** [chroma_client.delete_collection(name=name)] *)
Definition call_delete (name : string) : M unit :=
  emit (EvDelete name) ;;;
  on_client (fun c => res_bind (delete_collection name c) (fun c' => inr (tt, c'))).

(** [chroma_client.get_or_create_collection(name=name)] *)
Definition call_get_or_create (name : string) : M Handle :=
  emit (EvGetOrCreate name) ;;;
  on_client (get_or_create_collection name).

(** [collection.add(...)] on the current global [collection] *)
Definition call_add (args : AddArgs Embedding) : M unit :=
  h <- get_collection ;;
  emit (EvAdd args) ;;;
  on_client (fun c => res_bind (collection_add h args c) (fun c' => inr (tt, c'))).

(** [collection.query(query_embeddings=q, n_results=n)] *)
Definition call_query (q : list Embedding) (n : Z) : M QueryResult :=
  h <- get_collection ;;
  emit (EvQuery q n) ;;;
  on_client (fun c => res_bind (collection_query h q n c) (fun r => inr (r, c))).

(** [await asyncio.gather] over [embedding_tasks]: the results in task order, or
    the exception of a failing task.  When several tasks fail, [gather]
    raises the one that fails first in time; the model takes the one with
    the least batch index, and no theorem depends on which it is. *)
Fixpoint gather_from (k : nat) (tasks : list (list string)) : Res (list (list Embedding)) :=
  match tasks with
  | [] => inr []
  | t :: rest =>
      res_bind (embed_content_async k t) (fun r =>
      res_bind (gather_from (S k) rest) (fun rs => inr (r :: rs)))
  end.

Definition gather (tasks : list (list string)) : Res (list (list Embedding)) :=
  gather_from 0 tasks.

(** ** Ingestion *)

(** The arguments of the [collection.add] call of the batch starting at [i]. *)
Definition add_args (ids docs : list string) (all_embeddings : list Embedding)
    (metas : list Metadata) (batch_size i : Z) : AddArgs Embedding :=
  {| a_ids := Py.slice ids i (i + batch_size);
     a_documents := Py.slice docs i (i + batch_size);
     a_embeddings := Py.slice all_embeddings i (i + batch_size);
     a_metadatas := Py.slice metas i (i + batch_size) |}.

(** [add_df_to_db_async(df, source_name="uploaded_df", batch_size=100)] *)
Definition add_df_to_db_async (df : DataFrame) (source_name : string)
    (batch_size : Z) : M unit :=
  let docs := build_docs df in
  let ids := build_ids df source_name in
  let metas := build_metas df source_name in
  embedding_tasks <- lift (batches docs batch_size) ;;
  print (MsgStartEmbedding (length embedding_tasks)) ;;;
  all_embeddings_results <- lift (gather embedding_tasks) ;;
  print MsgEmbeddingsDone ;;;
  let all_embeddings := concat all_embeddings_results in
  starts <- lift (Py.range 0 (Py.len ids) batch_size) ;;
  for_each starts (fun i =>
    call_add (add_args ids docs all_embeddings metas batch_size i) ;;;
    print (MsgAddedBatch (i / batch_size + 1))) ;;;
  print (MsgTotalAdded (length docs) source_name).

(** [add_df_to_db(df, source_name="uploaded_df")]: runs the coroutine with
    its default batch size. *)
Definition add_df_to_db (df : DataFrame) (source_name : string) : M unit :=
  add_df_to_db_async df source_name 100.

(** ** Query *)

(** [d.get(key, default)] *)
Definition dict_get {A} (f : DictField A) (default : option A) : option A :=
  match f with
  | Absent => default
  | PyNone => None
  | Value v => Some v
  end.

(** [x[0]] where [x] may be [None] *)
Definition first_of {A} (x : option (list A)) : Res A :=
  match x with
  | None => inl (TypeError "'NoneType' object is not subscriptable")
  | Some l => Py.getitem l 0
  end.

(** [metadatas[i] or {}], then the two [meta.get] of the hit *)
Definition make_hit (doc : string) (entry : option Metadata) : Hit :=
  let meta : Metadata := default ∅ entry in
  {| text := doc; source := meta !! "source"; row := meta !! "row" |}.

(** [for i, doc in enumerate(docs): ...], from index [i] on *)
Fixpoint hits_from (i : Z) (docs : list string) (metadatas : list (option Metadata))
    : Res (list Hit) :=
  match docs with
  | [] => inr []
  | doc :: rest =>
      res_bind (Py.getitem metadatas i) (fun entry =>
      res_bind (hits_from (i + 1) rest metadatas) (fun hits =>
      inr (make_hit doc entry :: hits)))
  end.

(** [query_db(question, top_k=3)] *)
Definition query_db (question : string) (top_k : Z) : M (list Hit) :=
  q_emb <- lift (embed_content question) ;;
  results <- call_query [q_emb] top_k ;;
  docs <- lift (first_of (dict_get (q_documents results) (Some [[]]))) ;;
  metadatas <- lift (first_of (dict_get (q_metadatas results) (Some [[]]))) ;;
  lift (hits_from 0 docs metadatas).

(** ** Reset *)

(** [clear_db()] *)
Definition clear_db : M unit :=
  try_except
    (call_delete "data_collection" ;;;
     h <- call_get_or_create "data_collection" ;;
     set_collection h ;;;
     print MsgResetDone)
    (fun e => print (MsgResetFailed e)).

End Program.

(** ** Notions the statements use *)

(** The index entries an [add] call carries: its four lists, position by
    position. *)
Record IndexEntry (E : Type) := {
  e_id : string;
  e_text : string;
  e_embedding : E;
  e_metadata : Metadata
}.
Arguments e_id {E} _.
Arguments e_text {E} _.
Arguments e_embedding {E} _.
Arguments e_metadata {E} _.

Fixpoint index_entries {E} (ids docs : list string) (embs : list E)
    (metas : list Metadata) : list (IndexEntry E) :=
  match ids, docs, embs, metas with
  | i :: ids', d :: docs', e :: embs', m :: metas' =>
      {| e_id := i; e_text := d; e_embedding := e; e_metadata := m |}
      :: index_entries ids' docs' embs' metas'
  | _, _, _, _ => []
  end.

Definition entries_of {E} (a : AddArgs E) : list (IndexEntry E) :=
  index_entries (a_ids a) (a_documents a) (a_embeddings a) (a_metadatas a).

(** [ceil(n / b)] for [b > 0] *)
Definition ceil_div (n b : Z) : Z := (n + b - 1) / b.

(** The first [m] consecutive pieces of [b] elements of [l]. *)
Definition chunks {A} (b m : nat) (l : list A) : list (list A) :=
  (fun k : nat => take b (drop (k * b) l)) <$> seq 0 m.

Section Observations.
Context {BE : Backend}.

(** The [add] calls of a trace, in order. *)
Definition added (t : list Event) : list (AddArgs Embedding) :=
  omap (fun ev => match ev with EvAdd a => Some a | _ => None end) t.

(** The store after the [add] calls [calls] all returned, if they do. *)
Fixpoint apply_adds (h : Handle) (calls : list (AddArgs Embedding)) (c : Client)
    : Res Client :=
  match calls with
  | [] => inr c
  | a :: rest => res_bind (collection_add h a c) (apply_adds h rest)
  end.

(** The events of the commit loop over [calls], batch numbers from [k]. *)
Fixpoint commit_events (k : Z) (calls : list (AddArgs Embedding)) : list Event :=
  match calls with
  | [] => []
  | a :: rest => EvAdd a :: EvPrint (MsgAddedBatch k) :: commit_events (k + 1) rest
  end.

(** The [add] calls the commit loop of [add_df_to_db_async] goes through
    when the flattened embeddings are [all_embeddings]. *)
Definition add_calls (df : DataFrame) (source_name : string) (batch_size : Z)
    (all_embeddings : list Embedding) : Res (list (AddArgs Embedding)) :=
  let docs := build_docs df in
  let ids := build_ids df source_name in
  let metas := build_metas df source_name in
  res_bind (Py.range 0 (Py.len ids) batch_size) (fun starts =>
    inr (add_args ids docs all_embeddings metas batch_size <$> starts)).

(** The body of the commit loop, on the batch starting at [i], and the
    events it leaves when its [add] returns. *)
Definition commit_body (args : Z -> AddArgs Embedding) (batch_size : Z) (i : Z) : M unit :=
  bind (call_add (args i)) (fun _ => print (MsgAddedBatch (i / batch_size + 1))).

Definition body_events (args : Z -> AddArgs Embedding) (batch_size : Z) (i : Z)
    : list Event :=
  [EvAdd (args i); EvPrint (MsgAddedBatch (i / batch_size + 1))].

(** The call that carries the [k]-th piece of [b] elements of each of the
    four lists. *)
Definition piece_call (ids docs : list string) (embs : list Embedding)
    (metas : list Metadata) (b k : nat) : AddArgs Embedding :=
  {| a_ids := take b (drop (k * b) ids);
     a_documents := take b (drop (k * b) docs);
     a_embeddings := take b (drop (k * b) embs);
     a_metadatas := take b (drop (k * b) metas) |}.


(** A state with another store and more events. *)
Definition advance (w : World) (c : Client) (evs : list Event) : World :=
  {| client := c; collection := collection w; trace := trace w ++ evs |}.

End Observations.

(** ** The record serialization in the specification's words *)

Module Spec.

(** One ["column: value"] pair; a missing value gives the empty value. *)
Definition pair_text (col : string) (v : Scalar) : string :=
  match v with
  | NA => col +:+ ": "
  | _ => col +:+ ": " +:+ str v
  end.

(** The pairs of a record in column order, separated by [", "]. *)
Fixpoint record_text (record : list (string * Scalar)) : string :=
  match record with
  | [] => ""
  | [(col, v)] => pair_text col v
  | (col, v) :: rest => pair_text col v +:+ ", " +:+ record_text rest
  end.

End Spec.

(** ** A concrete backend *)

(** A small stand-in for the two services, to run the functions on
    examples.  An embedding is the length of its text.  The client keeps
    its collections by name; a collection object is a name with the uid it
    was created under, and goes stale when its collection is deleted.
    [embed_fails] and [add_fails] choose the calls that raise. *)
Module Fake.

Record Coll := {
  uid : nat;
  entries : list (IndexEntry Z)
}.

Record State := {
  next_uid : nat;
  colls : gmap string Coll
}.

Definition embed (t : string) : Z := Z.of_nat (String.length t).

Definition find (h : string * nat) (c : State) : Res Coll :=
  match colls c !! h.1 with
  | Some coll =>
      if Nat.eqb (uid coll) h.2 then inr coll
      else inl (StoreError "collection does not exist")
  | None => inl (StoreError "collection does not exist")
  end.

Definition delete (name : string) (c : State) : Res State :=
  match colls c !! name with
  | Some _ => inr {| next_uid := next_uid c; colls := base.delete name (colls c) |}
  | None => inl (StoreError "collection does not exist")
  end.

Definition get_or_create (name : string) (c : State) : Res ((string * nat) * State) :=
  match colls c !! name with
  | Some coll => inr ((name, uid coll), c)
  | None =>
      inr ((name, next_uid c),
           {| next_uid := S (next_uid c);
              colls := <[name := {| uid := next_uid c; entries := [] |}]> (colls c) |})
  end.

Definition same_lengths (a : AddArgs Z) : bool :=
  Nat.eqb (length (a_documents a)) (length (a_ids a))
  && Nat.eqb (length (a_embeddings a)) (length (a_ids a))
  && Nat.eqb (length (a_metadatas a)) (length (a_ids a)).

Definition add (add_fails : AddArgs Z -> bool) (h : string * nat) (a : AddArgs Z)
    (c : State) : Res State :=
  res_bind (find h c) (fun coll =>
    if add_fails a || negb (same_lengths a) then inl (StoreError "add rejected")
    else inr {| next_uid := next_uid c;
                colls := <[h.1 := {| uid := uid coll;
                                     entries := entries coll ++ entries_of a |}]> (colls c) |}).

(** The first [n] entries, in insertion order, stand for the [n] nearest. *)
Definition query (h : string * nat) (q : list Z) (n : Z) (c : State) : Res QueryResult :=
  res_bind (find h c) (fun coll =>
    if n <=? 0 then inl (StoreError "n_results must be positive")
    else
      let top := take (Z.to_nat n) (entries coll) in
      inr {| q_documents := Value [e_text <$> top];
             q_metadatas := Value [(fun e => Some (e_metadata e)) <$> top] |}).

Definition backend (embed_fails : nat -> bool) (add_fails : AddArgs Z -> bool) : Backend :=
  {| Embedding := Z;
     Client := State;
     Handle := string * nat;
     embed_content := fun t => inr (embed t);
     embed_content_async := fun k texts =>
       if embed_fails k then inl (EmbeddingError "embedding service failed")
       else inr (embed <$> texts);
     delete_collection := delete;
     get_or_create_collection := get_or_create;
     collection_add := add add_fails;
     collection_query := query |}.

(** A process state without events. *)
Definition start (embed_fails : nat -> bool) (add_fails : AddArgs Z -> bool)
    (c : State) (h : string * nat) : WorldOf State (string * nat) Z :=
  {| client := c; collection := h; trace := [] |}.

Definition fresh_state : State :=
  {| next_uid := 1; colls := {[ "data_collection" := {| uid := 0; entries := [] |} ]} |}.

Definition fresh_handle : string * nat := ("data_collection", 0%nat).

(** The collection was dropped behind the process's back: the global
    handle is stale. *)
Definition dropped_state : State := {| next_uid := 1; colls := ∅ |}.

(** [n] data rows [{col1: i, col2: text_i}], as in the module's [__main__]. *)
Definition sample_rows (n : nat) : list (list Scalar) :=
  (fun i : nat => [VInt (Z.of_nat i); VStr ("text_" +:+ pretty (Z.of_nat i))]) <$> seq 0 n.

Definition sample_df (n : nat) : DataFrame := default_frame ["col1"; "col2"] (sample_rows n).

End Fake.

(** ** Inputs of the examples *)

Module Scenario.

(** Five rows, ingested in batches of two. *)
Definition df : DataFrame := Fake.sample_df 5.

Definition tasks : list (list string) := chunks 2 3 (build_docs df).

(** The embedding call of batch 1 raises. *)
Definition batch1_fails (k : nat) : bool := Nat.eqb k 1.

(** The store rejects the [add] call that starts with row 2. *)
Definition row2_rejected (a : AddArgs Z) : bool :=
  match a_ids a with
  | id :: _ => String.eqb id "s_row2"
  | [] => false
  end.

Definition never {A} (_ : A) : bool := false.

Definition embed_down : Backend := Fake.backend batch1_fails never.

Definition add_down : Backend := Fake.backend never row2_rejected.

Definition healthy : Backend := Fake.backend never never.

(** The state after import: [data_collection] exists and is empty. *)
Definition initial (embed_fails : nat -> bool) (add_fails : AddArgs Z -> bool)
    : WorldOf Fake.State (string * nat) Z :=
  Fake.start embed_fails add_fails Fake.fresh_state Fake.fresh_handle.

(** The state when the collection was dropped by someone else: the global
    handle is stale. *)
Definition dropped (embed_fails : nat -> bool) (add_fails : AddArgs Z -> bool)
    : WorldOf Fake.State (string * nat) Z :=
  Fake.start embed_fails add_fails Fake.dropped_state Fake.fresh_handle.

(** The lists of the run on [df] with source name ["s"], its [add] calls
    and the store after the first of them. *)
Definition docs : list string := build_docs df.
Definition ids : list string := build_ids df "s".
Definition metas : list Metadata := build_metas df "s".
Definition embs : list Z := Fake.embed <$> docs.

(** What the service returns for [tasks]. *)
Definition results : list (list Z) := (fun t : list string => Fake.embed <$> t) <$> tasks.

Definition call (k : nat) : AddArgs Z := piece_call (BE := add_down) ids docs embs metas 2 k.

Definition after_first : Fake.State :=
  match Fake.add never Fake.fresh_handle (call 0) Fake.fresh_state with
  | inr c => c
  | inl _ => Fake.fresh_state
  end.

(** The state after [df] was ingested with both services up. *)
Definition stored : WorldOf Fake.State (string * nat) Z :=
  (add_df_to_db_async (BE := healthy) df "s" 2 (initial never never)).2.

(** A table without rows. *)
Definition empty_df : DataFrame := default_frame ["col1"; "col2"] [].

(** A record with a missing value in its second column. *)
Definition record3 : list (string * Scalar) :=
  [("a", VInt 1); ("b", NA); ("c", VStr "x")].

End Scenario.

(** ** CSV entry point *)

(** [os.path.basename] as [posixpath] defines it:
    [i = p.rfind("/") + 1; return p[i:]]. *)
Module Path.
Import Stdlib.Strings.Ascii.

(** [p.rfind("/")] when [p] starts at index [i] of the whole path and
    [last] is the last index found before it, [-1] for none. *)
Fixpoint rfind_from (i last : Z) (p : string) : Z :=
  match p with
  | EmptyString => last
  | String c rest =>
      rfind_from (i + 1) (if Ascii.eqb c "/"%char then i else last) rest
  end.

Definition rfind_slash (p : string) : Z := rfind_from 0 (-1) p.

Fixpoint drop_chars (n : nat) (p : string) : string :=
  match n, p with
  | O, _ => p
  | S n', EmptyString => EmptyString
  | S n', String _ rest => drop_chars n' rest
  end.

(** [p[i:]] *)
Definition slice_from (p : string) (i : Z) : string :=
  drop_chars (Z.to_nat (Py.slice_index (Z.of_nat (String.length p)) i)) p.

Definition basename (p : string) : string :=
  slice_from p (rfind_slash p + 1).

(** No character of [p] is a slash. *)
Fixpoint no_slash (p : string) : bool :=
  match p with
  | EmptyString => true
  | String c rest => negb (Ascii.eqb c "/"%char) && no_slash rest
  end.

End Path.

Section Csv.
Context {BE : Backend}.

(** [pd.read_csv]: the file system and the parser are outside the module. *)
Variable read_csv : string -> Res DataFrame.

(** [add_csv_to_db(file_path)] *)
Definition add_csv_to_db (file_path : string) : M unit :=
  bind (lift (read_csv file_path)) (fun df =>
    let source_name := Path.basename file_path in
    add_df_to_db df source_name).

End Csv.

(** An event of ingestion: an [add] call or a printed line. *)
Definition is_add_or_print {E} (ev : EventOf E) : bool :=
  match ev with
  | EvAdd _ | EvPrint _ => true
  | _ => false
  end.

(** ** More inputs for examples *)

(** A backend that answers from a script: one outcome for every
    [embed_content] call and one for every [collection.query] call; batch
    embeddings are as in [Fake], the store accepts everything and keeps
    nothing. *)
Module Stub.

Definition backend (embedded : Res Z) (answer : Res QueryResult) : Backend :=
  {| Embedding := Z;
     Client := unit;
     Handle := unit;
     embed_content := fun _ => embedded;
     embed_content_async := fun _ texts => inr (Fake.embed <$> texts);
     delete_collection := fun _ c => inr c;
     get_or_create_collection := fun _ c => inr (tt, c);
     collection_add := fun _ _ c => inr c;
     collection_query := fun _ _ _ _ => answer |}.

Definition start : WorldOf unit unit Z :=
  {| client := tt; collection := tt; trace := [] |}.

(** Two documents, one metadata entry. *)
Definition short_answer : QueryResult :=
  {| q_documents := Value [["d0"; "d1"]];
     q_metadatas := Value [[None]] |}.

(** An answer with neither key. *)
Definition bare_answer : QueryResult :=
  {| q_documents := Absent; q_metadatas := Absent |}.

(** A file system with one readable file of five rows; an empty file makes
    [read_csv] raise pandas' [EmptyDataError], a [ValueError]. *)
Definition read_csv (file_path : string) : Res DataFrame :=
  if String.eqb file_path "data/samples.csv"
  then inr (default_frame ["col1"; "col2"] (Fake.sample_rows 5))
  else inl (ValueError "No columns to parse from file").

End Stub.

(** ** Tables under any index *)

(** An index label of any type.  An integer label is [LInt]; a label of
    another type (a string, a float, a tuple) is carried by the text
    [f"{i}"] gives for it and by what [int(i)] does with it: its value, or
    the exception it raises. *)
Inductive Label :=
| LInt (z : Z)
| LOther (shown : string) (as_int : Res Z).

(** [f"{i}"] *)
Definition label_text (i : Label) : string :=
  match i with
  | LInt z => pretty z
  | LOther shown _ => shown
  end.

(** [int(i)] *)
Definition int_of_label (i : Label) : Res Z :=
  match i with
  | LInt z => inr z
  | LOther _ as_int => as_int
  end.

Record IndexedFrame := {
  i_columns : list string;
  i_rows : list (Label * list Scalar)
}.

(** A table with integer labels, as a table under any index. *)
Definition of_int_frame (df : DataFrame) : IndexedFrame :=
  {| i_columns := columns df;
     i_rows := (fun ir => (LInt ir.1, ir.2)) <$> rows df |}.

(** The first loop of [add_df_to_db_async], row by row: it stops at the
    first row whose [int(i)] raises. *)
Fixpoint first_loop (cols : list string) (source_name : string)
    (rws : list (Label * list Scalar))
    : Res (list string * list string * list Metadata) :=
  match rws with
  | [] => inr ([], [], [])
  | (i, row) :: rest =>
      let row_text := row_text cols row in
      let doc_id := source_name +:+ "_row" +:+ label_text i in
      res_bind (int_of_label i) (fun n =>
      res_bind (first_loop cols source_name rest) (fun acc =>
        inr (row_text :: acc.1.1, doc_id :: acc.1.2,
             ({[ "source" := MStr source_name; "row" := MInt n ]} : Metadata)
             :: acc.2)))
  end.

Section AnyIndex.
Context {BE : Backend}.
Local Open Scope py_scope.

(** [add_df_to_db_async] from its second loop on, given the lists the
    first loop filled. *)
Definition ingest_lists (docs ids : list string) (metas : list Metadata)
    (source_name : string) (batch_size : Z) : M unit :=
  embedding_tasks <- lift (batches docs batch_size) ;;
  print (MsgStartEmbedding (length embedding_tasks)) ;;;
  all_embeddings_results <- lift (gather embedding_tasks) ;;
  print MsgEmbeddingsDone ;;;
  let all_embeddings := concat all_embeddings_results in
  starts <- lift (Py.range 0 (Py.len ids) batch_size) ;;
  for_each starts (fun i =>
    call_add (add_args ids docs all_embeddings metas batch_size i) ;;;
    print (MsgAddedBatch (i / batch_size + 1))) ;;;
  print (MsgTotalAdded (length docs) source_name).

(** [add_df_to_db_async] on a table under any index. *)
Definition add_df_to_db_async_any_index (df : IndexedFrame) (source_name : string)
    (batch_size : Z) : M unit :=
  lists <- lift (first_loop (i_columns df) source_name (i_rows df)) ;;
  ingest_lists lists.1.1 lists.1.2 lists.2 source_name batch_size.

End AnyIndex.

(** ** Tables for the examples on index labels *)

Module Labelled.

(** Three rows under the labels 10, 11, 12, as a slice of a longer table
    keeps them. *)
Definition shifted : DataFrame :=
  {| columns := ["col1"];
     rows := [(10, [VInt 0]); (11, [VInt 1]); (12, [VInt 2])] |}.




End Labelled.

(** * Properties *)

(** ** Ranges and slices *)

Section PyFacts.
Local Open Scope Z_scope.

Lemma range_length_up (n B : Z) :
  0 <= n -> 0 < B -> Py.range_length 0 n B = ceil_div n B.
Proof.
  intros Hn HB. unfold Py.range_length, ceil_div.
  destruct (Z.ltb_spec 0 B); [|lia]. simpl.
  destruct (Z.ltb_spec 0 n).
  - replace (n + B - 1) with (n - 1 + 1 * B) by lia.
    rewrite Z.div_add by lia. replace (n - 1 - 0) with (n - 1) by lia. lia.
  - assert (n = 0) as -> by lia. simpl.
    destruct (Z.ltb_spec B 0); [lia|].
    symmetry. apply Z.div_small. lia.
Qed.

Lemma ceil_div_bounds (n B : Z) :
  0 <= n -> 0 < B ->
  0 <= ceil_div n B /\ n <= ceil_div n B * B /\ (0 < n -> (ceil_div n B - 1) * B < n).
Proof.
  intros Hn HB. unfold ceil_div.
  pose proof (Z.div_mod (n + B - 1) B ltac:(lia)) as Hdm.
  pose proof (Z.mod_pos_bound (n + B - 1) B HB) as Hm.
  assert (0 <= (n + B - 1) / B) by (apply Z.div_pos; lia).
  repeat split; nia.
Qed.

Lemma range_up (n B : Z) :
  0 <= n -> 0 < B ->
  Py.range 0 n B
  = inr ((fun k : nat => Z.of_nat k * B) <$> seq 0 (Z.to_nat (ceil_div n B))).
Proof.
  intros Hn HB. unfold Py.range.
  destruct (Z.eqb_spec B 0); [lia|].
  rewrite range_length_up by done. unfold seqZ.
  rewrite <- list_fmap_compose. f_equal.
  apply list_fmap_ext. intros _ k _. simpl. lia.
Qed.

Lemma range_down (n B : Z) : 0 <= n -> B < 0 -> Py.range 0 n B = inr [].
Proof.
  intros Hn HB. unfold Py.range, Py.range_length.
  destruct (Z.eqb_spec B 0); [lia|].
  destruct (Z.ltb_spec 0 B); [lia|]. simpl.
  destruct (Z.ltb_spec B 0); [|lia].
  destruct (Z.ltb_spec n 0); [lia|]. simpl. done.
Qed.

Lemma range_zero (a n : Z) :
  Py.range a n 0 = inl (ValueError "range() arg 3 must not be zero").
Proof. reflexivity. Qed.

Lemma take_min_length {A} (l : list A) (a : nat) :
  take (a `min` length l) l = take a l.
Proof.
  destruct (Nat.le_ge_cases a (length l)).
  - by rewrite Nat.min_l.
  - rewrite Nat.min_r by done. by rewrite !take_ge.
Qed.

Lemma slice_chunk {A} (l : list A) (k : nat) (B : Z) :
  0 < B ->
  Py.slice l (Z.of_nat k * B) (Z.of_nat k * B + B)
  = take (Z.to_nat B) (drop (k * Z.to_nat B) l).
Proof.
  intros HB. unfold Py.slice, Py.slice_index, Py.len.
  set (n := length l).
  destruct (Z.ltb_spec (Z.of_nat k * B) 0); [nia|].
  destruct (Z.ltb_spec (Z.of_nat k * B + B) 0); [nia|].
  assert (Z.of_nat (k * Z.to_nat B) = Z.of_nat k * B) as Hk by nia.
  destruct (Z.le_gt_cases (Z.of_nat k * B) (Z.of_nat n)) as [Hle|Hgt].
  - rewrite (Z.min_l (Z.of_nat k * B)) by done.
    replace (Z.to_nat (Z.of_nat k * B)) with (k * Z.to_nat B)%nat by lia.
    rewrite <- (take_min_length (drop _ l) (Z.to_nat B)). rewrite length_drop. fold n.
    f_equal. lia.
  - rewrite (drop_ge l (k * Z.to_nat B)) by (fold n; lia).
    rewrite (drop_ge l (Z.to_nat _)) by (fold n; lia).
    by rewrite !take_nil.
Qed.

Lemma batches_up {A} (l : list A) (B : Z) :
  0 < B ->
  batches l B = inr (chunks (Z.to_nat B) (Z.to_nat (ceil_div (Py.len l) B)) l).
Proof.
  intros HB. unfold batches, chunks.
  rewrite range_up by (unfold Py.len; lia). simpl.
  rewrite <- list_fmap_compose. f_equal.
  apply list_fmap_ext. intros _ k _. simpl. by apply slice_chunk.
Qed.

End PyFacts.

(** ** Consecutive pieces of a list *)

Section Chunks.
Context {A : Type}.
Implicit Types (l : list A) (b m k : nat).
Local Open Scope nat_scope.

Lemma length_chunks b m l : length (chunks b m l) = m.
Proof. unfold chunks. by rewrite length_fmap, length_seq. Qed.

Lemma lookup_chunks b m l k :
  k < m -> chunks b m l !! k = Some (take b (drop (k * b) l)).
Proof.
  intros Hk. unfold chunks. rewrite list_lookup_fmap.
  by rewrite lookup_seq_lt.
Qed.

Lemma chunks_S b m l : chunks b (S m) l = take b l :: chunks b m (drop b l).
Proof.
  unfold chunks. simpl. f_equal.
  rewrite <- fmap_S_seq, <- list_fmap_compose.
  apply list_fmap_ext. intros _ k _. simpl.
  rewrite drop_drop. done.
Qed.

Lemma take_chunks b m l k : k <= m -> take k (chunks b m l) = chunks b k l.
Proof.
  intros Hk. unfold chunks. rewrite <- fmap_take, take_seq.
  by rewrite Nat.min_l.
Qed.

Lemma concat_chunks_prefix b k l : concat (chunks b k l) = take (k * b) l.
Proof.
  revert l. induction k as [|k IH]; intros l.
  - by rewrite take_0.
  - rewrite chunks_S. simpl. rewrite IH. apply take_take_drop.
Qed.

Lemma concat_chunks b m l : length l <= m * b -> concat (chunks b m l) = l.
Proof. intros Hm. rewrite concat_chunks_prefix. by apply take_ge. Qed.

Lemma concat_sum_lengths (ls : list (list A)) :
  length (concat ls) = sum_list_with length ls.
Proof.
  induction ls as [|x ls IH]; [done|].
  simpl. rewrite length_app. by rewrite IH.
Qed.

(** In a list of lists whose first [k] members all have length [b], the
    member of index [k] sits at offset [k * b] of the concatenation. *)
Lemma lookup_concat_uniform (ls : list (list A)) b k j x :
  Forall (fun y => length y = b) (take k ls) ->
  ls !! k = Some x -> j < length x ->
  concat ls !! (k * b + j) = x !! j.
Proof.
  revert ls. induction k as [|k IH]; intros ls Hall Hk Hj.
  - destruct ls as [|y ls]; [done|]. simpl in Hk. injection Hk as ->.
    simpl. by apply lookup_app_l.
  - destruct ls as [|y ls]; [done|]. simpl in *.
    apply Forall_cons in Hall as [Hy Hall].
    rewrite lookup_app_r by lia.
    replace (b + k * b + j - length y) with (k * b + j) by lia.
    by apply IH.
Qed.

End Chunks.

(** Shape of the batches of a list for a positive batch size. *)
Lemma batches_shape {A} (l : list A) (B : Z) :
  (0 < B)%Z ->
  exists m : nat,
    batches l B = inr (chunks (Z.to_nat B) m l)
    /\ Z.of_nat m = ceil_div (Py.len l) B
    /\ (length l <= m * Z.to_nat B)%nat
    /\ ((0 < m)%nat -> ((m - 1) * Z.to_nat B < length l)%nat).
Proof.
  intros HB. exists (Z.to_nat (ceil_div (Py.len l) B)).
  pose proof (ceil_div_bounds (Py.len l) B ltac:(unfold Py.len; lia) HB) as (H0 & H1 & H2).
  unfold Py.len in *.
  split; [by apply batches_up|]. split; [lia|]. split; [nia|].
  intros Hpos. destruct (length l) as [|n] eqn:Hn.
  - exfalso. revert Hpos. unfold ceil_div. simpl.
    rewrite Z.div_small by lia. simpl. lia.
  - specialize (H2 ltac:(lia)). nia.
Qed.

(** The batches of a list, batch by batch. *)
Lemma batches_pieces {A} (l : list A) (B : Z) (bs : list (list A)) :
  (0 < B)%Z -> batches l B = inr bs ->
  concat bs = l
  /\ Py.len bs = ceil_div (Py.len l) B
  /\ (forall k, (k <= length bs)%nat ->
        concat (take k bs) = take (k * Z.to_nat B) l)
  /\ (forall k b, bs !! k = Some b ->
        b = Py.slice l (Z.of_nat k * B) (Z.of_nat k * B + B)
        /\ b = take (Z.to_nat B) (drop (k * Z.to_nat B) l)
        /\ (0 < Py.len b <= B)%Z
        /\ ((S k < length bs)%nat -> Py.len b = B)).
Proof.
  intros HB Hbs.
  destruct (batches_shape l B HB) as (m & Hm & Hceil & Hup & Hlow).
  rewrite Hbs in Hm. injection Hm as ->.
  rewrite length_chunks. unfold Py.len. rewrite length_chunks.
  split; [by apply concat_chunks|]. split; [done|]. split.
  - intros k Hk. rewrite take_chunks by done. apply concat_chunks_prefix.
  - intros k b Hb.
    assert (k < m)%nat as Hk.
    { apply lookup_lt_Some in Hb. by rewrite length_chunks in Hb. }
    rewrite lookup_chunks in Hb by done. injection Hb as <-.
    specialize (Hlow ltac:(lia)).
    split; [by rewrite slice_chunk|]. split; [done|].
    rewrite length_take, length_drop. split; [nia|]. intros HS. nia.
Qed.

Section Gather.
Context {BE : Backend}.

Lemma gather_from_inr k0 ts rs :
  gather_from k0 ts = inr rs ->
  length rs = length ts
  /\ forall k t, ts !! k = Some t ->
       exists r, rs !! k = Some r /\ embed_content_async (k0 + k)%nat t = inr r.
Proof.
  revert k0 rs. induction ts as [|t ts IH]; intros k0 rs Hg; simpl in Hg.
  - injection Hg as <-. split; [done|]. intros k t Hk. done.
  - destruct (embed_content_async k0 t) as [e|r] eqn:Hr; [done|]. simpl in Hg.
    destruct (gather_from (S k0) ts) as [e|rs'] eqn:Hrs; [done|]. simpl in Hg.
    injection Hg as <-. destruct (IH _ _ Hrs) as [Hlen Hall].
    split; [simpl; by rewrite Hlen|].
    intros [|k] t' Hk; simpl in Hk.
    + injection Hk as <-. exists r. by rewrite Nat.add_0_r.
    + destruct (Hall k t' Hk) as (r' & Hr' & He). exists r'.
      split; [done|]. by replace (k0 + S k)%nat with (S k0 + k)%nat by lia.
Qed.

Lemma gather_from_inl k0 ts k t e :
  ts !! k = Some t -> embed_content_async (k0 + k)%nat t = inl e ->
  exists e' k' t',
    gather_from k0 ts = inl e'
    /\ ts !! k' = Some t' /\ embed_content_async (k0 + k')%nat t' = inl e'.
Proof.
  revert k0 k. induction ts as [|t0 ts IH]; intros k0 k Hk He; [done|].
  simpl. destruct (embed_content_async k0 t0) as [e0|r0] eqn:H0.
  - exists e0, 0%nat, t0. by rewrite Nat.add_0_r.
  - destruct k as [|k]; simpl in Hk.
    + injection Hk as ->. rewrite Nat.add_0_r in He. congruence.
    + replace (k0 + S k)%nat with (S k0 + k)%nat in He by lia.
      destruct (IH _ _ Hk He) as (e' & k' & t' & Hg & Hk' & He').
      exists e', (S k'), t'. simpl. rewrite Hg. simpl.
      split; [done|]. split; [done|].
      by replace (k0 + S k')%nat with (S k0 + k')%nat by lia.
Qed.

Lemma gather_from_all k0 ts :
  (forall k t, ts !! k = Some t -> exists r, embed_content_async (k0 + k)%nat t = inr r) ->
  exists rs, gather_from k0 ts = inr rs.
Proof.
  revert k0. induction ts as [|t ts IH]; intros k0 Hall; simpl; [by eexists|].
  destruct (Hall 0%nat t eq_refl) as [r Hr]. rewrite Nat.add_0_r in Hr.
  rewrite Hr. simpl.
  destruct (IH (S k0)) as [rs Hrs].
  { intros k t' Hk. destruct (Hall (S k) t' Hk) as [r' Hr'].
    exists r'. by replace (S k0 + k)%nat with (k0 + S k)%nat by lia. }
  rewrite Hrs. simpl. by eexists.
Qed.

End Gather.

Section Partition.
Context {BE : Backend}.

(** C2. For a positive [batch_size] the embedding batches
    [docs[i*B : i*B+B]] exist, are the consecutive slices of [docs] in
    order, have sizes that sum to [len(docs)], are all of size [batch_size]
    except possibly the last (none is empty), and concatenate back to
    [docs]; and when the service answers every batch with one embedding per
    text, the flattened embeddings have the length of [docs] and the
    embedding at position [i] is the one returned for document [i]. *)
Theorem batches_partition_aligned (docs : list string) (batch_size : Z) :
  (0 < batch_size)%Z ->
  exists bs,
    batches docs batch_size = inr bs
    /\ concat bs = docs
    /\ sum_list_with length bs = length docs
    /\ (forall k, (k <= length bs)%nat ->
          concat (take k bs) = take (k * Z.to_nat batch_size) docs)
    /\ (forall k b, bs !! k = Some b ->
          b = Py.slice docs (Z.of_nat k * batch_size)
                (Z.of_nat k * batch_size + batch_size)
          /\ (0 < Py.len b <= batch_size)%Z
          /\ ((S k < length bs)%nat -> Py.len b = batch_size))
    /\ (forall rs,
          gather bs = inr rs ->
          Forall2 (fun t r => length r = length t) bs rs ->
          length (concat rs) = length docs
          /\ forall i d, docs !! i = Some d ->
               exists k j t r,
                 i = (k * Z.to_nat batch_size + j)%nat
                 /\ bs !! k = Some t /\ t !! j = Some d
                 /\ rs !! k = Some r
                 /\ embed_content_async k t = inr r
                 /\ concat rs !! i = r !! j).
Proof.
  intros HB.
  destruct (batches_shape docs batch_size HB) as (m & Hm & Hceil & Hup & Hlow).
  exists (chunks (Z.to_nat batch_size) m docs). split; [done|].
  destruct (batches_pieces docs batch_size _ HB Hm) as (Hcat & _ & Hpre & Hpiece).
  split; [done|].
  split; [by rewrite <- concat_sum_lengths, Hcat|].
  split; [done|].
  split; [intros k b Hb; destruct (Hpiece k b Hb) as (? & ? & ? & ?); done|].
  intros rs Hg Hlens.
  assert (length (concat rs) = length docs) as Hlen.
  { transitivity (length (concat (chunks (Z.to_nat batch_size) m docs)));
      [|by rewrite Hcat].
    rewrite !concat_sum_lengths.
    clear -Hlens. induction Hlens as [|t r ts rs' Htr _ IH]; [done|].
    simpl. by rewrite Htr, IH. }
  split; [done|].
  intros i d Hi. set (b := Z.to_nat batch_size) in *.
  assert (0 < b)%nat as Hb by (unfold b; lia).
  assert (i < length docs)%nat as Hilt by (by apply lookup_lt_Some in Hi).
  pose proof (Nat.div_mod_eq i b) as Hdm.
  pose proof (Nat.mod_upper_bound i b ltac:(lia)) as Hmod.
  assert (i `div` b < m)%nat as Hk by nia.
  exists (i `div` b)%nat, (i `mod` b)%nat, (take b (drop (i `div` b * b) docs)).
  apply gather_from_inr in Hg as [Hrl Hall].
  destruct (Hall _ _ (lookup_chunks b m docs _ Hk)) as (r & Hr & He).
  exists r.
  assert (take b (drop (i `div` b * b) docs) !! (i `mod` b) = Some d)%nat as Htd.
  { rewrite lookup_take_lt by done. rewrite lookup_drop.
    by replace (i `div` b * b + i `mod` b)%nat with i by lia. }
  split; [lia|]. split; [by apply lookup_chunks|]. split; [done|].
  split; [done|]. split; [done|].
  replace i with (i `div` b * b + i `mod` b)%nat at 1 by lia.
  apply lookup_concat_uniform; [|done|].
  - apply Forall_lookup_2. intros k' r' Hr'.
    apply lookup_take_Some in Hr' as [Hr' Hk'].
    destruct (Forall2_lookup_r _ _ _ _ _ Hlens Hr') as (t' & Ht' & ->).
    destruct (Hpiece _ _ Ht') as (_ & _ & _ & Hfull).
    rewrite length_chunks in Hfull. unfold Py.len in Hfull. fold b in Hfull.
    specialize (Hfull ltac:(lia)). lia.
  - rewrite (Forall2_lookup_lr _ _ _ _ _ _ Hlens (lookup_chunks b m docs _ Hk) Hr).
    by apply lookup_lt_Some in Htd.
Qed.

End Partition.

(** ** The commit loop *)

Section Commit.
Context {BE : Backend}.
Local Open Scope py_scope.

Lemma advance_advance (w : World) c1 evs1 c2 evs2 :
  advance (advance w c1 evs1) c2 evs2 = advance w c2 (evs1 ++ evs2).
Proof. unfold advance. simpl. by rewrite <- app_assoc. Qed.

Lemma advance_id (w : World) : advance w (client w) [] = w.
Proof. destruct w. unfold advance. simpl. by rewrite app_nil_r. Qed.

Lemma commit_body_inr args B i (w : World) c' :
  collection_add (collection w) (args i) (client w) = inr c' ->
  commit_body args B i w = (inr tt, advance w c' (body_events args B i)).
Proof.
  intros Hadd. unfold commit_body, call_add, bind, get_collection, emit, print,
    emit, on_client. simpl. rewrite Hadd. simpl.
  unfold advance. simpl. by rewrite <- app_assoc.
Qed.

Lemma commit_body_inl args B i (w : World) e :
  collection_add (collection w) (args i) (client w) = inl e ->
  commit_body args B i w = (inl e, advance w (client w) [EvAdd (args i)]).
Proof.
  intros Hadd. unfold commit_body, call_add, bind, get_collection, emit, print,
    emit, on_client. simpl. by rewrite Hadd.
Qed.

Lemma commit_loop_inr args B starts (w : World) c' :
  apply_adds (collection w) (args <$> starts) (client w) = inr c' ->
  for_each starts (commit_body args B) w
  = (inr tt, advance w c' (starts ≫= body_events args B)).
Proof.
  revert w. induction starts as [|i starts IH]; intros w Happ; simpl in *.
  - injection Happ as <-. unfold ret. by rewrite advance_id.
  - destruct (collection_add (collection w) (args i) (client w)) as [e|c1] eqn:Hadd;
      [done|]. simpl in Happ.
    unfold bind at 1. rewrite (commit_body_inr _ _ _ _ _ Hadd).
    rewrite (IH (advance w c1 _)) by done.
    by rewrite advance_advance.
Qed.

Lemma commit_loop_inl args B pre i post (w : World) ck e :
  apply_adds (collection w) (args <$> pre) (client w) = inr ck ->
  collection_add (collection w) (args i) ck = inl e ->
  for_each (pre ++ i :: post) (commit_body args B) w
  = (inl e, advance w ck ((pre ≫= body_events args B) ++ [EvAdd (args i)])).
Proof.
  revert w. induction pre as [|j pre IH]; intros w Happ Hadd; simpl in *.
  - injection Happ as <-. unfold bind at 1.
    by rewrite (commit_body_inl _ _ _ _ _ Hadd).
  - destruct (collection_add (collection w) (args j) (client w)) as [e'|c1] eqn:Hj;
      [done|]. simpl in Happ.
    unfold bind at 1. rewrite (commit_body_inr _ _ _ _ _ Hj).
    rewrite (IH (advance w c1 _)) by done.
    by rewrite advance_advance.
Qed.

Lemma commit_loop_inv args B starts (w w' : World) :
  for_each starts (commit_body args B) w = (inr tt, w') ->
  exists c', apply_adds (collection w) (args <$> starts) (client w) = inr c'.
Proof.
  revert w. induction starts as [|i starts IH]; intros w Hrun; simpl in *.
  - by eexists.
  - unfold bind at 1 in Hrun.
    destruct (collection_add (collection w) (args i) (client w)) as [e|c1] eqn:Hadd.
    + by rewrite (commit_body_inl _ _ _ _ _ Hadd) in Hrun.
    + rewrite (commit_body_inr _ _ _ _ _ Hadd) in Hrun. simpl.
      destruct (IH _ Hrun) as [c' Hc']. by exists c'.
Qed.

(** For a positive batch size the loop numbers its batches 1, 2, ... *)
Lemma body_events_numbered args B (k0 m : nat) :
  (0 < B)%Z ->
  ((fun k : nat => Z.of_nat k * B)%Z <$> seq k0 m) ≫= body_events args B
  = commit_events (Z.of_nat k0 + 1)
      (args <$> ((fun k : nat => Z.of_nat k * B)%Z <$> seq k0 m)).
Proof.
  intros HB. revert k0. induction m as [|m IH]; intros k0; [done|].
  simpl. rewrite Z.div_mul by lia. do 2 f_equal.
  rewrite IH. f_equal. lia.
Qed.

End Commit.

(** ** The ingestion run, phase by phase *)

Section Ingestion.
Context {BE : Backend}.
Implicit Types (df : DataFrame) (w : World).

Lemma length_build_docs df : length (build_docs df) = length (rows df).
Proof. unfold build_docs, iterrows. by rewrite length_fmap. Qed.

Lemma length_build_ids df s : length (build_ids df s) = length (rows df).
Proof. unfold build_ids, iterrows. by rewrite length_fmap. Qed.

Lemma length_build_metas df s : length (build_metas df s) = length (rows df).
Proof. unfold build_metas, iterrows. by rewrite length_fmap. Qed.

(** The four places where a run can stop, and the state it leaves there. *)
Lemma add_df_to_db_async_phases df s B w :
  add_df_to_db_async df s B w =
  match batches (build_docs df) B with
  | inl e => (inl e, w)
  | inr tasks =>
      let start := EvPrint (MsgStartEmbedding (length tasks)) in
      match gather tasks with
      | inl e => (inl e, advance w (client w) [start])
      | inr rs =>
          let w2 := advance w (client w) [start; EvPrint MsgEmbeddingsDone] in
          match Py.range 0 (Py.len (build_ids df s)) B with
          | inl e => (inl e, w2)
          | inr starts =>
              let args := add_args (build_ids df s) (build_docs df) (concat rs)
                            (build_metas df s) B in
              match for_each starts (commit_body args B) w2 with
              | (inl e, w3) => (inl e, w3)
              | (inr _, w3) =>
                  (inr tt, advance w3 (client w3)
                             [EvPrint (MsgTotalAdded (length (build_docs df)) s)])
              end
          end
      end
  end.
Proof.
  unfold add_df_to_db_async, bind at 1, lift at 1.
  destruct (batches (build_docs df) B) as [e|tasks]; [done|].
  unfold bind at 1, print at 1, emit at 1.
  unfold bind at 1, lift at 1.
  destruct (gather tasks) as [e|rs]; [done|].
  unfold bind at 1, print at 1, emit at 1. simpl.
  unfold bind at 1, lift at 1.
  rewrite <- app_assoc. simpl.
  destruct (Py.range 0 (Py.len (build_ids df s)) B) as [e|starts]; [done|].
  unfold bind at 1. unfold advance. simpl.
  change (fun i => bind (call_add ?a) _) with
    (commit_body (add_args (build_ids df s) (build_docs df) (concat rs)
                    (build_metas df s) B) B).
  destruct (for_each starts _ _) as [[e|[]] w3]; done.
Qed.

(** The two ranges of a run are the same range. *)
Lemma ids_range df s B :
  Py.range 0 (Py.len (build_ids df s)) B = Py.range 0 (Py.len (build_docs df)) B.
Proof. unfold Py.len. by rewrite length_build_ids, length_build_docs. Qed.

End Ingestion.

Section Runs.
Context {BE : Backend}.
Implicit Types (df : DataFrame) (w : World).

Lemma added_app (t1 t2 : list Event) : added (t1 ++ t2) = added t1 ++ added t2.
Proof. apply omap_app. Qed.

Lemma added_commit_events k (calls : list (AddArgs Embedding)) :
  added (commit_events k calls) = calls.
Proof.
  revert k. induction calls as [|a calls IH]; intros k; [done|].
  simpl. unfold added in *. simpl. by rewrite IH.
Qed.

(** Prefixes of the batch starts number their batches from 1. *)
Lemma prefix_events_numbered args B (m p : nat) :
  (0 < B)%Z ->
  let starts := (fun k : nat => Z.of_nat k * B)%Z <$> seq 0 m in
  take p starts ≫= body_events args B
  = commit_events 1 (args <$> take p starts).
Proof.
  intros HB starts. unfold starts.
  rewrite <- fmap_take, take_seq.
  by rewrite (body_events_numbered args B 0 _ HB).
Qed.

(** A list of starts that gives a non-empty list of calls comes from a
    positive batch size. *)
Lemma range_nonempty_positive (n B : Z) (i : Z) (pre post : list Z) :
  (0 <= n)%Z -> Py.range 0 n B = inr (pre ++ i :: post) -> (0 < B)%Z.
Proof.
  intros Hn Hr. destruct (Z.lt_trichotomy B 0) as [Hneg|[->|Hpos]]; [| |done].
  - rewrite range_down in Hr by done. injection Hr as Hr.
    by destruct pre.
  - by rewrite range_zero in Hr.
Qed.

(** C1. If the embedding call of some batch raises, the run raises the
    exception of a failing batch, the store is untouched, and the only new
    event is the line announcing the embedding phase: no [collection.add]
    call is issued. *)
Theorem embedding_failure_aborts_before_add df s B w tasks k t e :
  batches (build_docs df) B = inr tasks ->
  tasks !! k = Some t ->
  embed_content_async k t = inl e ->
  exists e' k' t',
    tasks !! k' = Some t'
    /\ embed_content_async k' t' = inl e'
    /\ add_df_to_db_async df s B w
       = (inl e', advance w (client w) [EvPrint (MsgStartEmbedding (length tasks))])
    /\ client (add_df_to_db_async df s B w).2 = client w
    /\ added (trace (add_df_to_db_async df s B w).2) = added (trace w).
Proof.
  intros Htasks Hk He.
  destruct (gather_from_inl 0 tasks k t e Hk He) as (e' & k' & t' & Hg & Hk' & He').
  exists e', k', t'. split; [done|]. split; [done|].
  rewrite add_df_to_db_async_phases, Htasks. unfold gather. rewrite Hg. simpl.
  split; [done|]. split; [done|].
  rewrite added_app. simpl. by rewrite app_nil_r.
Qed.

(** C4. The commit loop issues its [add] calls one after the other, and
    when the call of batch [k] raises, the run raises that exception and
    leaves the store as the [k] earlier calls made it: their events and
    batch lines are in the trace, followed by the failing call, and nothing
    is undone. *)
Theorem commit_failure_keeps_earlier_batches df s B w tasks rs pre a post ck e :
  batches (build_docs df) B = inr tasks ->
  gather tasks = inr rs ->
  add_calls df s B (concat rs) = inr (pre ++ a :: post) ->
  apply_adds (collection w) pre (client w) = inr ck ->
  collection_add (collection w) a ck = inl e ->
  add_df_to_db_async df s B w
  = (inl e, advance w ck
              ([EvPrint (MsgStartEmbedding (length tasks)); EvPrint MsgEmbeddingsDone]
               ++ commit_events 1 pre ++ [EvAdd a]))
  /\ client (add_df_to_db_async df s B w).2 = ck
  /\ added (trace (add_df_to_db_async df s B w).2) = added (trace w) ++ pre ++ [a].
Proof.
  intros Htasks Hg Hcalls Hpre Hfail.
  unfold add_calls in Hcalls.
  destruct (Py.range 0 (Py.len (build_ids df s)) B) as [e0|starts] eqn:Hr; [done|].
  simpl in Hcalls. injection Hcalls as Hcalls.
  set (args := add_args (build_ids df s) (build_docs df) (concat rs)
                 (build_metas df s) B) in *.
  apply fmap_app_inv in Hcalls as (spre & srest & -> & Hrest & ->).
  symmetry in Hrest. apply fmap_cons_inv in Hrest as (i & spost & -> & -> & ->).
  assert (0 < B)%Z as HB.
  { apply (range_nonempty_positive (Py.len (build_ids df s)) B i spre spost);
      [unfold Py.len; lia | done]. }
  assert (add_df_to_db_async df s B w
          = (inl e, advance w ck
              ([EvPrint (MsgStartEmbedding (length tasks)); EvPrint MsgEmbeddingsDone]
               ++ commit_events 1 (args <$> spre) ++ [EvAdd (args i)]))) as Hrun.
  { rewrite add_df_to_db_async_phases, Htasks, Hg, Hr. simpl. fold args.
    rewrite (commit_loop_inl args B spre i spost _ ck e) by done.
    rewrite advance_advance. do 3 f_equal.
    rewrite range_up in Hr by (done || unfold Py.len; lia).
    injection Hr as Hr.
    assert (spre = take (length spre) (spre ++ i :: spost)) as Hspre
      by (by rewrite take_app_length).
    rewrite Hspre, <- Hr.
    by rewrite (prefix_events_numbered args B _ _ HB). }
  rewrite Hrun. split; [done|]. split; [done|].
  unfold advance. cbn [snd trace].
  by rewrite !added_app, added_commit_events.
Qed.

(** C10. On a table without rows, and any batch size that is not zero,
    there are no embedding batches, the run returns normally, the store is
    unchanged, no [add] call is issued, and the run prints zero batches and
    zero rows; [add_df_to_db] is such a run. *)
Theorem empty_table_ingests_nothing df s B w :
  rows df = [] -> B <> 0%Z ->
  batches (build_docs df) B = inr []
  /\ add_df_to_db_async df s B w
     = (inr tt, advance w (client w)
                  [EvPrint (MsgStartEmbedding 0); EvPrint MsgEmbeddingsDone;
                   EvPrint (MsgTotalAdded 0 s)])
  /\ client (add_df_to_db_async df s B w).2 = client w
  /\ added (trace (add_df_to_db_async df s B w).2) = added (trace w)
  /\ add_df_to_db df s w
     = (inr tt, advance w (client w)
                  [EvPrint (MsgStartEmbedding 0); EvPrint MsgEmbeddingsDone;
                   EvPrint (MsgTotalAdded 0 s)]).
Proof.
  intros Hrows HB.
  assert (forall B', B' <> 0%Z -> Py.range 0 0 B' = inr []) as Hrange.
  { intros B' HB'. unfold Py.range, Py.range_length.
    destruct (Z.eqb_spec B' 0); [done|].
    rewrite Z.ltb_irrefl, !andb_false_r. done. }
  assert (forall B', B' <> 0%Z ->
    add_df_to_db_async df s B' w
    = (inr tt, advance w (client w)
                 [EvPrint (MsgStartEmbedding 0); EvPrint MsgEmbeddingsDone;
                  EvPrint (MsgTotalAdded 0 s)])) as Hrun.
  { intros B' HB'. rewrite add_df_to_db_async_phases.
    unfold batches, build_docs, build_ids, build_metas, iterrows.
    rewrite Hrows. simpl. unfold Py.len. simpl.
    change (Z.of_nat 0) with 0%Z.
    rewrite (Hrange B' HB'). simpl. unfold ret, advance. simpl.
    by rewrite <- app_assoc. }
  split.
  { unfold batches, build_docs, iterrows. rewrite Hrows. simpl.
    unfold Py.len. simpl. change (Z.of_nat 0) with 0%Z.
    by rewrite (Hrange B HB). }
  rewrite (Hrun B HB). simpl. split; [done|]. split; [done|].
  split; [|by apply Hrun].
  rewrite added_app. simpl. by rewrite app_nil_r.
Qed.

End Runs.

(** ** Index entries of the calls of a run *)

Section Entries.
Context {E : Type}.
Implicit Types (ids docs : list string) (embs : list E) (metas : list Metadata).





End Entries.

(** ** Runs that return *)

Section Success.
Context {BE : Backend}.
Implicit Types (df : DataFrame) (w : World).

Lemma add_calls_up df s B embs :
  (0 < B)%Z ->
  exists m : nat,
    add_calls df s B embs
    = inr (piece_call (build_ids df s) (build_docs df) embs (build_metas df s)
             (Z.to_nat B) <$> seq 0 m)
    /\ batches (build_docs df) B = inr (chunks (Z.to_nat B) m (build_docs df))
    /\ Z.of_nat m = ceil_div (Z.of_nat (length (rows df))) B
    /\ (length (rows df) <= m * Z.to_nat B)%nat.
Proof.
  intros HB.
  destruct (batches_shape (build_docs df) B HB) as (m & Hm & Hceil & Hup & _).
  exists m. unfold add_calls.
  pose proof Hm as Hm'. unfold batches in Hm'. rewrite <- (ids_range df s) in Hm'.
  destruct (Py.range 0 (Py.len (build_ids df s)) B) as [e|starts] eqn:Hr; [done|].
  rewrite range_up in Hr by (done || unfold Py.len; lia).
  injection Hr as <-.
  assert (Z.to_nat (ceil_div (Py.len (build_ids df s)) B) = m) as ->.
  { unfold Py.len in *. rewrite length_build_ids, <- length_build_docs. lia. }
  unfold Py.len in Hceil. rewrite length_build_docs in Hceil, Hup.
  split; [|done]. simpl. f_equal.
  rewrite <- list_fmap_compose. apply list_fmap_ext. intros _ k _. simpl.
  unfold add_args, piece_call. by rewrite !slice_chunk.
Qed.



Lemma concat_ids_of_calls ids docs (embs : list Embedding) metas b m :
  (length ids <= m * b)%nat ->
  concat (a_ids <$> (piece_call ids docs embs metas b <$> seq 0 m)) = ids.
Proof.
  intros Hm. rewrite <- list_fmap_compose. by apply (concat_chunks b m).
Qed.

(** When every answer of the service has one embedding per text, the
    flattened result of a [gather] is as long as the documents. *)
Lemma gather_total_length (tasks : list (list string)) rs :
  (forall k t r, embed_content_async k t = inr r -> length r = length t) ->
  gather tasks = inr rs ->
  length (concat rs) = length (concat tasks).
Proof.
  intros Hcontract. unfold gather. generalize 0%nat as k0.
  revert rs. induction tasks as [|t tasks IH]; intros rs k0 Hg; simpl in Hg.
  - by injection Hg as <-.
  - destruct (embed_content_async k0 t) as [e|r] eqn:Hr; [done|]. simpl in Hg.
    destruct (gather_from (S k0) tasks) as [e|rs'] eqn:Hrs; [done|]. simpl in Hg.
    injection Hg as <-. simpl. rewrite !length_app.
    by rewrite (Hcontract _ _ _ Hr), (IH _ _ Hrs).
Qed.

(** A run that returns went through all four phases. *)
Lemma run_returned df s B w w' :
  (0 < B)%Z ->
  add_df_to_db_async df s B w = (inr tt, w') ->
  exists tasks rs calls,
    batches (build_docs df) B = inr tasks
    /\ gather tasks = inr rs
    /\ add_calls df s B (concat rs) = inr calls
    /\ apply_adds (collection w) calls (client w) = inr (client w')
    /\ w' = advance w (client w')
              ([EvPrint (MsgStartEmbedding (length tasks)); EvPrint MsgEmbeddingsDone]
               ++ commit_events 1 calls
               ++ [EvPrint (MsgTotalAdded (length (rows df)) s)]).
Proof.
  intros HB Hrun. rewrite add_df_to_db_async_phases in Hrun.
  destruct (batches (build_docs df) B) as [e|tasks] eqn:Htasks; [done|].
  destruct (gather tasks) as [e|rs] eqn:Hg; [done|].
  exists tasks, rs. unfold add_calls.
  destruct (Py.range 0 (Py.len (build_ids df s)) B) as [e|starts] eqn:Hr; [done|].
  simpl in *.
  set (args := add_args (build_ids df s) (build_docs df) (concat rs)
                 (build_metas df s) B) in *.
  exists (args <$> starts).
  destruct (for_each starts _ _) as [[e|[]] w3] eqn:Hloop; [done|].
  destruct (commit_loop_inv _ _ _ _ _ Hloop) as [c' Hc']. simpl in Hc'.
  rewrite (commit_loop_inr args B starts _ c') in Hloop by done.
  injection Hloop as <-. injection Hrun as <-.
  rewrite !advance_advance. simpl.
  split; [done|]. split; [done|]. split; [done|]. split; [done|].
  rewrite length_build_docs. do 4 f_equal.
  rewrite range_up in Hr by (done || unfold Py.len; lia).
  injection Hr as <-.
  by rewrite (body_events_numbered args B 0 _ HB).
Qed.

End Success.

Section Committed.
Context {BE : Backend}.
Implicit Types (df : DataFrame) (w : World).







Lemma build_ids_default cols data s :
  build_ids (default_frame cols data) s
  = (fun i => s +:+ "_row" +:+ pretty i) <$> seqZ 0 (Py.len data).
Proof.
  unfold build_ids, default_frame, iterrows. simpl.
  rewrite <- (fst_zip (seqZ 0 (Py.len data)) data) at 2
    by (unfold Py.len; rewrite length_seqZ; lia).
  by rewrite <- list_fmap_compose.
Qed.

Lemma rows_default cols data : length (rows (default_frame cols data)) = length data.
Proof.
  unfold default_frame. simpl. rewrite length_zip, length_seqZ.
  unfold Py.len. lia.
Qed.

(** C5, as the code has it.  A table of [N] rows ingested with source
    name [s] and a positive batch size [B] gives [ceil(N/B)] embedding
    batches, each of [B] documents except that the last may be shorter,
    with [N] documents in all; and a run that returns has issued
    [ceil(N/B)] [add] calls, which all returned and carry [N] ids: the ids
    [s_row<label>] of the index labels of the table, in row order.  Under
    the default index these are [s_row0], ..., [s_row(N-1)]. *)
Theorem ingest_batches_and_label_ids df s B w :
  (0 < B)%Z ->
  (add_df_to_db_async df s B w).1 = inr tt ->
  let N := length (rows df) in
  let w' := (add_df_to_db_async df s B w).2 in
  exists tasks calls,
    batches (build_docs df) B = inr tasks
    /\ Py.len tasks = ceil_div (Z.of_nat N) B
    /\ (forall k t, tasks !! k = Some t ->
          (0 < Py.len t <= B)%Z /\ ((S k < length tasks)%nat -> Py.len t = B))
    /\ sum_list_with length tasks = N
    /\ added (trace w') = added (trace w) ++ calls
    /\ apply_adds (collection w) calls (client w) = inr (client w')
    /\ Py.len calls = ceil_div (Z.of_nat N) B
    /\ concat (a_ids <$> calls)
       = (fun label => s +:+ "_row" +:+ pretty label) <$> (rows df).*1
    /\ length (concat (a_ids <$> calls)) = N
    /\ (forall cols data, df = default_frame cols data ->
          concat (a_ids <$> calls)
          = (fun i => s +:+ "_row" +:+ pretty i) <$> seqZ 0 (Z.of_nat N)).
Proof.
  intros HB Hret N w'. subst N w'.
  destruct (add_df_to_db_async df s B w) as [r w'] eqn:Hrun.
  simpl in Hret. subst r. simpl.
  destruct (run_returned df s B w w' HB Hrun) as
    (tasks & rs & calls & Htasks & Hg & Hcalls & Happ & Hw').
  destruct (add_calls_up df s B (concat rs) HB) as (m & Hcalls' & _ & Hceil & Hup).
  rewrite Hcalls in Hcalls'. injection Hcalls' as ->.
  destruct (batches_pieces _ _ _ HB Htasks) as (Hcat & Hlen & _ & Hpiece).
  exists tasks. eexists. split; [done|].
  unfold Py.len in *. rewrite length_build_docs in Hlen.
  split; [done|]. split.
  { intros k t Ht. destruct (Hpiece k t Ht) as (_ & _ & ? & ?). done. }
  split; [by rewrite <- concat_sum_lengths, Hcat, length_build_docs|].
  split.
  { rewrite Hw'. unfold advance. cbn [trace].
    rewrite !added_app, added_commit_events. simpl. by rewrite app_nil_r. }
  split; [done|].
  split; [by rewrite length_fmap, length_seq|].
  rewrite concat_ids_of_calls by (by rewrite length_build_ids).
  assert (build_ids df s
          = (fun label => s +:+ "_row" +:+ pretty label) <$> (rows df).*1) as Hids.
  { unfold build_ids, iterrows. by rewrite <- list_fmap_compose. }
  split; [done|]. split; [by rewrite length_build_ids|].
  intros cols data ->. rewrite build_ids_default, rows_default. done.
Qed.

End Committed.

(** ** Document text *)

Lemma pair_text_row_value col v :
  col +:+ ": " +:+ (if notna v then str v else "") = Spec.pair_text col v.
Proof. by destruct v. Qed.

(** C9. The text of a record is its ["column: value"] pairs in column
    order, separated by [", "], where a missing value gives ["column: "]
    with nothing after the colon and the space: the code's [row_text] is
    the serialization written from the specification. *)
Theorem row_text_is_record_text (record : list (string * Scalar)) :
  row_text record.*1 record.*2 = Spec.record_text record
  /\ (forall col, row_text [col] [NA] = col +:+ ": ")
  /\ (forall col v rest, rest <> [] ->
        row_text ((col, v) :: rest).*1 ((col, v) :: rest).*2
        = Spec.pair_text col v +:+ ", " +:+ row_text rest.*1 rest.*2)
  /\ (forall col, Spec.pair_text col NA = col +:+ ": ").
Proof.
  assert (forall rec : list (string * Scalar),
            row_text rec.*1 rec.*2 = Spec.record_text rec) as Hrec.
  { induction rec as [|[col v] rest IH]; [done|].
    destruct rest as [|[col' v'] rest].
    - unfold row_text, row_values. simpl. apply pair_text_row_value.
    - unfold row_text, row_values in *. simpl in *.
      rewrite IH. by rewrite pair_text_row_value. }
  split; [apply Hrec|]. split; [done|]. split; [|done].
  intros col v rest Hrest. rewrite !Hrec.
  destruct rest as [|[col' v'] rest]; done.
Qed.

(** ** Batch size *)

(** C7, as the code has it.  The partition of a list raises only for a
    batch size of zero, the [ValueError] of [range]; a positive batch size
    always gives batches; a negative one is not rejected and gives no batch
    at all.  In a run, the zero batch size raises before any event. *)
Theorem batch_size_failure_modes {BE : Backend} {A} (l : list A) (B : Z) :
  ((0 < B)%Z -> exists bs, batches l B = inr bs)
  /\ (B = 0%Z -> batches l B = inl (ValueError "range() arg 3 must not be zero"))
  /\ ((B < 0)%Z -> batches l B = inr [])
  /\ (forall df s (w : World),
        add_df_to_db_async df s 0 w
        = (inl (ValueError "range() arg 3 must not be zero"), w)).
Proof.
  split; [|split; [|split]].
  - intros HB. rewrite batches_up by done. by eexists.
  - intros ->. done.
  - intros HB. unfold batches. rewrite range_down by (done || unfold Py.len; lia).
    done.
  - intros df s w. by rewrite add_df_to_db_async_phases.
Qed.

(** ** Reset *)

Section Reset.
Context {BE : Backend}.
Implicit Types (w : World).

(** C3, as the code has it.  [clear_db] never raises.  When the delete
    raises, the exception is printed and nothing else happens: the store
    and the global collection are as before and [get_or_create_collection]
    is not called.  The global collection is replaced exactly when the
    delete and the creation both return. *)
Theorem clear_db_outcomes w :
  (clear_db w).1 = inr tt
  /\ (forall e,
        delete_collection "data_collection" (client w) = inl e ->
        clear_db w
        = (inr tt, advance w (client w)
                     [EvDelete "data_collection"; EvPrint (MsgResetFailed e)]))
  /\ (forall c1 e,
        delete_collection "data_collection" (client w) = inr c1 ->
        get_or_create_collection "data_collection" c1 = inl e ->
        clear_db w
        = (inr tt, advance w c1
                     [EvDelete "data_collection"; EvGetOrCreate "data_collection";
                      EvPrint (MsgResetFailed e)]))
  /\ (forall c1 h c2,
        delete_collection "data_collection" (client w) = inr c1 ->
        get_or_create_collection "data_collection" c1 = inr (h, c2) ->
        clear_db w
        = (inr tt, {| client := c2; collection := h;
                      trace := trace w ++ [EvDelete "data_collection";
                                           EvGetOrCreate "data_collection";
                                           EvPrint MsgResetDone] |})).
Proof.
  assert (forall r : Res Client,
            delete_collection "data_collection" (client w) = r ->
            (clear_db w).1 = inr tt) as Hnever.
  { intros r Hr. unfold clear_db, try_except, call_delete, call_get_or_create,
      bind, emit, on_client, set_collection, print, emit. simpl.
    rewrite Hr. destruct r as [e|c1]; simpl; [done|].
    destruct (get_or_create_collection "data_collection" c1) as [e|[h c2]]; done. }
  split; [by eapply Hnever|].
  unfold clear_db, try_except, call_delete, call_get_or_create,
    bind, emit, on_client, set_collection, print, emit, advance. simpl.
  split; [|split].
  - intros e ->. simpl. by rewrite <- app_assoc.
  - intros c1 e -> . simpl. intros ->. simpl. by rewrite <- !app_assoc.
  - intros c1 h c2 ->. simpl. intros ->. simpl. by rewrite <- !app_assoc.
Qed.

End Reset.

(** ** Query *)

Section Query.
Context {BE : Backend}.
Implicit Types (w : World).

Lemma getitem_nat {A} (l : list A) (i : nat) x :
  l !! i = Some x -> Py.getitem l (Z.of_nat i) = inr x.
Proof.
  intros Hx. unfold Py.getitem.
  assert ((Z.of_nat i <? 0)%Z = false) as -> by (apply Z.ltb_ge; lia).
  assert ((Z.of_nat i <? 0)%Z = false) as -> by (apply Z.ltb_ge; lia).
  by rewrite Nat2Z.id, Hx.
Qed.

Lemma hits_from_zip docs (i : nat) (metadatas : list (option Metadata)) :
  (i + length docs <= length metadatas)%nat ->
  hits_from (Z.of_nat i) docs metadatas
  = inr (zip_with make_hit docs (drop i metadatas)).
Proof.
  revert i. induction docs as [|doc docs IH]; intros i Hlen; [done|].
  simpl in *.
  destruct (lookup_lt_is_Some_2 metadatas i ltac:(lia)) as [entry Hentry].
  rewrite (getitem_nat _ _ _ Hentry). simpl.
  replace (Z.of_nat i + 1)%Z with (Z.of_nat (S i)) by lia.
  rewrite IH by lia. simpl.
  by rewrite (drop_S _ _ _ Hentry).
Qed.

(** C6. When the question is embedded and the store answers with a
    documents list and a metadata list that has an entry for each
    document, [query_db] returns one hit per document, in the order of the
    store's lists: the hit's text is the document, its source and row are
    read from the metadata entry, and both are [None] when the entry is
    [None].  An answer without documents, as for an empty collection,
    gives the empty list of hits and no exception. *)
Theorem query_db_hits question top_k w q_emb r docs metas :
  embed_content question = inr q_emb ->
  collection_query (collection w) [q_emb] top_k (client w) = inr r ->
  first_of (dict_get (q_documents r) (Some [[]])) = inr docs ->
  first_of (dict_get (q_metadatas r) (Some [[]])) = inr metas ->
  (length docs <= length metas)%nat ->
  (query_db question top_k w).1 = inr (zip_with make_hit docs metas)
  /\ length (zip_with make_hit docs metas) = length docs
  /\ (forall (i : nat) doc entry,
        docs !! i = Some doc -> metas !! i = Some entry ->
        zip_with make_hit docs metas !! i
        = Some {| text := doc;
                  source := entry ≫= (fun m => m !! "source");
                  row := entry ≫= (fun m => m !! "row") |})
  /\ (forall (i : nat) doc,
        docs !! i = Some doc -> metas !! i = Some None ->
        zip_with make_hit docs metas !! i
        = Some {| text := doc; source := None; row := None |})
  /\ (docs = [] -> (query_db question top_k w).1 = inr []).
Proof.
  intros Hemb Hq Hdocs Hmetas Hlen.
  assert ((query_db question top_k w).1 = inr (zip_with make_hit docs metas)) as Hrun.
  { unfold query_db, call_query, get_collection, emit, on_client, lift, bind. simpl.
    rewrite Hemb. simpl. rewrite Hq. simpl. rewrite Hdocs, Hmetas. simpl.
    change 0%Z with (Z.of_nat 0). rewrite hits_from_zip by (simpl; lia).
    by rewrite drop_0. }
  assert (forall (i : nat) doc entry,
            docs !! i = Some doc -> metas !! i = Some entry ->
            zip_with make_hit docs metas !! i
            = Some {| text := doc;
                      source := entry ≫= (fun m => m !! "source");
                      row := entry ≫= (fun m => m !! "row") |}) as Hhit.
  { intros i doc entry Hd Hm. rewrite lookup_zip_with, Hd, Hm. simpl.
    unfold make_hit. destruct entry as [m|]; simpl; [done|].
    by rewrite !lookup_empty. }
  split; [done|]. split; [rewrite length_zip_with; lia|].
  split; [done|]. split.
  - intros i doc Hd Hm. by rewrite (Hhit i doc None Hd Hm).
  - intros ->. by rewrite Hrun.
Qed.

End Query.

(** * Examples on the concrete backend *)

Section Witnesses.
Local Open Scope Z_scope.

Lemma embedding_failure_aborts_before_add_witness :
  let BE := Scenario.embed_down in
  let w : WorldOf Fake.State (string * nat) Z := Scenario.initial Scenario.batch1_fails Scenario.never in
  exists e' k' t',
    Scenario.tasks !! k' = Some t'
    /\ embed_content_async k' t' = inl e'
    /\ add_df_to_db_async Scenario.df "s" 2 w
       = (inl e', advance w (client w) [EvPrint (MsgStartEmbedding (length Scenario.tasks))])
    /\ client (add_df_to_db_async Scenario.df "s" 2 w).2 = client w
    /\ added (trace (add_df_to_db_async Scenario.df "s" 2 w).2) = added (trace w).
Proof.
  intros BE w.
  apply (embedding_failure_aborts_before_add (BE := BE) Scenario.df "s" 2 w
           Scenario.tasks 1 ["col1: 2, col2: text_2"; "col1: 3, col2: text_3"]
           (EmbeddingError "embedding service failed")).
  - vm_compute. reflexivity.
  - vm_compute. reflexivity.
  - vm_compute. reflexivity.
Defined.

Lemma batches_partition_aligned_witness :
  (0 < 2)%Z
  /\ exists bs,
       batches Scenario.docs 2 = inr bs
       /\ concat bs = Scenario.docs
       /\ sum_list_with length bs = 5%nat.
Proof.
  split; [lia|].
  destruct (batches_partition_aligned (BE := Scenario.healthy) Scenario.docs 2
              ltac:(lia)) as (bs & Hb & Hc & Hs & _).
  exists bs. split; [exact Hb|]. split; [exact Hc|]. rewrite Hs. reflexivity.
Defined.

(** C3, as the specification has it, fails: the collection is gone, so the
    delete raises; [get_or_create_collection] would hand out a new empty
    collection, but [clear_db] returns with the old handle and without
    having created anything. *)
Lemma clear_db_keeps_stale_handle :
  let BE := Scenario.healthy in
  let w : WorldOf Fake.State (string * nat) Z := Scenario.dropped Scenario.never Scenario.never in
  delete_collection "data_collection" (client w)
  = inl (StoreError "collection does not exist")
  /\ get_or_create_collection "data_collection" (client w)
     = inr (("data_collection", 1%nat),
            {| Fake.next_uid := 2;
               Fake.colls := {[ "data_collection" :=
                                  {| Fake.uid := 1; Fake.entries := [] |} ]} |})
  /\ (clear_db w).1 = inr tt
  /\ collection (clear_db w).2 = ("data_collection", 0%nat)
  /\ collection (clear_db w).2 <> ("data_collection", 1%nat)
  /\ Fake.colls (client (clear_db w).2) !! "data_collection" = None
  /\ added (trace (clear_db w).2) = []
  /\ trace (clear_db w).2
     = [EvDelete "data_collection";
        EvPrint (MsgResetFailed (StoreError "collection does not exist"))].
Proof.
  intros BE w.
  split; [vm_compute; reflexivity|]. split; [vm_compute; reflexivity|].
  split; [vm_compute; reflexivity|]. split; [vm_compute; reflexivity|].
  split; [vm_compute; discriminate|].
  split; [vm_compute; reflexivity|]. split; vm_compute; reflexivity.
Defined.

Lemma clear_db_outcomes_witness :
  let BE := Scenario.healthy in
  let w : WorldOf Fake.State (string * nat) Z := Scenario.dropped Scenario.never Scenario.never in
  clear_db w
  = (inr tt, advance w (client w)
               [EvDelete "data_collection";
                EvPrint (MsgResetFailed (StoreError "collection does not exist"))]).
Proof.
  intros BE w.
  destruct (clear_db_outcomes (BE := BE) w) as (_ & Hfail & _).
  apply Hfail. vm_compute. reflexivity.
Defined.

Lemma commit_failure_keeps_earlier_batches_witness :
  let BE := Scenario.add_down in
  let w : WorldOf Fake.State (string * nat) Z := Scenario.initial Scenario.never Scenario.row2_rejected in
  let run := add_df_to_db_async Scenario.df "s" 2 w in
  run.1 = inl (StoreError "add rejected")
  /\ client run.2 = Scenario.after_first
  /\ added (trace run.2) = [Scenario.call 0; Scenario.call 1]
  /\ (e_id <$> Fake.entries
        (default {| Fake.uid := 0; Fake.entries := [] |}
           (Fake.colls (client run.2) !! "data_collection")))
     = ["s_row0"; "s_row1"].
Proof.
  intros BE w run.
  destruct (commit_failure_keeps_earlier_batches (BE := BE) Scenario.df "s" 2 w
              Scenario.tasks (Scenario.results)
              [Scenario.call 0] (Scenario.call 1) [Scenario.call 2]
              Scenario.after_first (StoreError "add rejected"))
    as (Hrun & Hck & Hadded).
  - vm_compute. reflexivity.
  - vm_compute. reflexivity.
  - vm_compute. reflexivity.
  - vm_compute. reflexivity.
  - vm_compute. reflexivity.
  - subst run. split; [by rewrite Hrun|]. split; [exact Hck|].
    split; [exact Hadded|]. rewrite Hck. vm_compute. reflexivity.
Defined.

Lemma ingest_batches_and_label_ids_witness :
  let BE := Scenario.healthy in
  let w : WorldOf Fake.State (string * nat) Z :=
    Scenario.initial Scenario.never Scenario.never in
  let df := default_frame ["col1"; "col2"] (Fake.sample_rows 250) in
  let w' := (add_df_to_db_async df "samples.csv" 100 w).2 in
  exists tasks calls,
    batches (build_docs df) 100 = inr tasks
    /\ length <$> tasks = [100; 100; 50]%nat
    /\ added (trace w') = calls
    /\ length calls = 3%nat
    /\ length (concat (a_ids <$> calls)) = 250%nat
    /\ concat (a_ids <$> calls)
       = (fun i => "samples.csv_row" +:+ pretty i) <$> seqZ 0 250
    /\ concat (a_ids <$> calls) !! 0%nat = Some "samples.csv_row0"
    /\ concat (a_ids <$> calls) !! 249%nat = Some "samples.csv_row249".
Proof.
  intros BE w df w'.
  destruct (ingest_batches_and_label_ids (BE := BE) df "samples.csv" 100 w
              ltac:(lia))
    as (tasks & calls & Htasks & _ & _ & _ & Hadded & _ & Hcalls & _ & Hn & Hids).
  { vm_compute. reflexivity. }
  specialize (Hids ["col1"; "col2"] (Fake.sample_rows 250) eq_refl).
  assert (length (rows df) = 250%nat) as Hrows by (vm_compute; reflexivity).
  rewrite Hrows in Hcalls, Hn, Hids.
  exists tasks, calls. split; [exact Htasks|].
  assert (batches (build_docs df) 100 = inr (chunks 100 3 (build_docs df))) as Hc
    by (vm_compute; reflexivity).
  rewrite Hc in Htasks. injection Htasks as <-.
  split; [vm_compute; reflexivity|].
  split; [exact Hadded|].
  assert (ceil_div (Z.of_nat 250) 100 = 3) as Hthree by (vm_compute; reflexivity).
  split; [rewrite Hthree in Hcalls; unfold Py.len in Hcalls; lia|].
  split; [exact Hn|].
  split; [exact Hids|].
  rewrite Hids. split; vm_compute; reflexivity.
Defined.

(** C5, as the specification has it, fails: the three rows of a table
    under the index labels 10, 11, 12 get the ids of their labels, not
    [samples.csv_row0] to [samples.csv_row2]. *)
Lemma ids_follow_index_labels :
  let BE := Scenario.healthy in
  let w : WorldOf Fake.State (string * nat) Z :=
    Scenario.initial Scenario.never Scenario.never in
  let run := add_df_to_db_async Labelled.shifted "samples.csv" 100 w in
  length (rows Labelled.shifted) = 3%nat
  /\ run.1 = inr tt
  /\ concat (a_ids <$> added (trace run.2))
     = ["samples.csv_row10"; "samples.csv_row11"; "samples.csv_row12"]
  /\ concat (a_ids <$> added (trace run.2))
     <> ["samples.csv_row0"; "samples.csv_row1"; "samples.csv_row2"].
Proof.
  intros BE w run.
  split; [reflexivity|]. split; [vm_compute; reflexivity|].
  split; [vm_compute; reflexivity|]. vm_compute. discriminate.
Defined.

Lemma query_db_hits_witness :
  let BE := Scenario.healthy in
  (query_db "text_1" 3 Scenario.stored).1
  = inr [ {| text := "col1: 0, col2: text_0";
             source := Some (MStr "s"); row := Some (MInt 0) |};
          {| text := "col1: 1, col2: text_1";
             source := Some (MStr "s"); row := Some (MInt 1) |};
          {| text := "col1: 2, col2: text_2";
             source := Some (MStr "s"); row := Some (MInt 2) |} ]
  /\ (query_db (BE := BE) "text_1" 3
        (Scenario.initial Scenario.never Scenario.never)).1 = inr [].
Proof.
  intros BE. split.
  - destruct (query_db_hits (BE := BE) "text_1" 3 Scenario.stored
                (Fake.embed "text_1")
                {| q_documents := Value [take 3 Scenario.docs];
                   q_metadatas := Value [Some <$> take 3 Scenario.metas] |}
                (take 3 Scenario.docs) (Some <$> take 3 Scenario.metas))
      as (Hrun & _).
    + reflexivity.
    + vm_compute. reflexivity.
    + reflexivity.
    + reflexivity.
    + vm_compute. lia.
    + rewrite Hrun. vm_compute. reflexivity.
  - destruct (query_db_hits (BE := BE) "text_1" 3
                (Scenario.initial Scenario.never Scenario.never)
                (Fake.embed "text_1")
                {| q_documents := Value [[]]; q_metadatas := Value [[]] |}
                [] [])
      as (_ & _ & _ & _ & Hempty).
    + reflexivity.
    + vm_compute. reflexivity.
    + reflexivity.
    + reflexivity.
    + simpl. lia.
    + by apply Hempty.
Defined.

(** C7, as the specification has it, fails: a batch size of -1 is not a
    positive integer, yet the partition raises nothing and gives no batch,
    and the run on three rows returns normally without any [add] call,
    printing that three rows were added. *)
Lemma negative_batch_size_not_reported :
  let BE := Scenario.healthy in
  let w : WorldOf Fake.State (string * nat) Z := Scenario.initial Scenario.never Scenario.never in
  ~ (0 < -1)%Z
  /\ batches ["a"; "b"; "c"] (-1) = inr []
  /\ (forall e : Exn, batches ["a"; "b"; "c"] (-1) <> inl e)
  /\ add_df_to_db_async (Fake.sample_df 3) "s" (-1) w
     = (inr tt, advance w (client w)
                  [EvPrint (MsgStartEmbedding 0); EvPrint MsgEmbeddingsDone;
                   EvPrint (MsgTotalAdded 3 "s")]).
Proof.
  intros BE w. split; [lia|]. split; [reflexivity|].
  split; [discriminate|]. vm_compute. reflexivity.
Defined.

Lemma batch_size_failure_modes_witness :
  (exists bs, batches ["a"; "b"; "c"] 2 = inr bs)
  /\ batches ["a"; "b"; "c"] 0 = inl (ValueError "range() arg 3 must not be zero")
  /\ batches ["a"; "b"; "c"] (-1) = inr [].
Proof.
  destruct (batch_size_failure_modes (BE := Scenario.healthy) ["a"; "b"; "c"] 2)
    as (Hpos & _).
  destruct (batch_size_failure_modes (BE := Scenario.healthy) ["a"; "b"; "c"] 0)
    as (_ & Hzero & _).
  destruct (batch_size_failure_modes (BE := Scenario.healthy) ["a"; "b"; "c"] (-1))
    as (_ & _ & Hneg & _).
  split; [apply Hpos; lia|]. split; [apply Hzero; reflexivity|]. apply Hneg. lia.
Defined.



Lemma row_text_is_record_text_witness :
  row_text ["a"; "b"; "c"] [VInt 1; NA; VStr "x"] = "a: 1, b: , c: x".
Proof.
  destruct (row_text_is_record_text Scenario.record3) as (Hrec & _).
  simpl in Hrec. rewrite Hrec. reflexivity.
Defined.

Lemma empty_table_ingests_nothing_witness :
  let BE := Scenario.healthy in
  let w : WorldOf Fake.State (string * nat) Z := Scenario.initial Scenario.never Scenario.never in
  add_df_to_db Scenario.empty_df "samples.csv" w
  = (inr tt, advance w (client w)
               [EvPrint (MsgStartEmbedding 0); EvPrint MsgEmbeddingsDone;
                EvPrint (MsgTotalAdded 0 "samples.csv")])
  /\ added (trace (add_df_to_db_async Scenario.empty_df "samples.csv" 100 w).2) = [].
Proof.
  intros BE w.
  destruct (empty_table_ingests_nothing (BE := BE) Scenario.empty_df "samples.csv"
              100 w) as (_ & _ & _ & Hadded & Hsync).
  - reflexivity.
  - lia.
  - split; [exact Hsync|]. rewrite Hadded. reflexivity.
Defined.

End Witnesses.

(** * Further properties of the module *)

(** ** Paths *)

Section PathFacts.
Import Stdlib.Strings.Ascii.
Local Open Scope Z_scope.

Lemma rfind_from_no_slash p i last :
  Path.no_slash p = true -> Path.rfind_from i last p = last.
Proof.
  revert i last. induction p as [|c p IH]; intros i last Hp; [done|].
  simpl in *. apply andb_prop in Hp as [Hc Hp].
  apply negb_true_iff in Hc. rewrite Hc. by apply IH.
Qed.

Lemma rfind_from_last_slash d n i last :
  Path.no_slash n = true ->
  Path.rfind_from i last (d +:+ "/" +:+ n) = i + Z.of_nat (String.length d).
Proof.
  intros Hn. revert i last. induction d as [|c d IH]; intros i last.
  - simpl. rewrite rfind_from_no_slash by done. lia.
  - simpl. rewrite IH. lia.
Qed.

Lemma drop_chars_app d n : Path.drop_chars (String.length d) (d +:+ n) = n.
Proof. induction d as [|c d IH]; [by destruct n|]. simpl. exact IH. Qed.

Lemma length_app_string d n :
  String.length (d +:+ n) = (String.length d + String.length n)%nat.
Proof. induction d as [|c d IH]; [done|]. simpl. by rewrite IH. Qed.

(** A path is free of slashes, or splits at its last slash. *)
Lemma last_slash_split p :
  Path.no_slash p = true
  \/ exists d n, p = d +:+ "/" +:+ n /\ Path.no_slash n = true.
Proof.
  induction p as [|c p IH]; [by left|].
  destruct IH as [Hp|(d & n & -> & Hn)].
  - simpl. destruct (Ascii.eqb c "/"%char) eqn:Hc.
    + right. exists "", p. apply Ascii.eqb_eq in Hc as ->. done.
    + left. by rewrite Hp.
  - right. exists (String c d), n. done.
Qed.

Lemma app_string_assoc d m n : (d +:+ m) +:+ n = d +:+ m +:+ n.
Proof.
  induction d as [|c d IH]; [done|].
  change (String c ((d +:+ m) +:+ n) = String c (d +:+ m +:+ n)).
  by rewrite IH.
Qed.

Lemma basename_split d n :
  Path.no_slash n = true -> Path.basename (d +:+ "/" +:+ n) = n.
Proof.
  intros Hn. unfold Path.basename, Path.rfind_slash, Path.slice_from.
  rewrite rfind_from_last_slash by done.
  assert (String.length (d +:+ "/" +:+ n)
          = S (String.length d + String.length n)) as Hlen.
  { rewrite !length_app_string. simpl. lia. }
  assert (String.length (d +:+ "/") = S (String.length d)) as Hd.
  { rewrite length_app_string. simpl. lia. }
  rewrite Hlen. unfold Py.slice_index.
  destruct (Z.ltb_spec (0 + Z.of_nat (String.length d) + 1) 0); [lia|].
  rewrite Z.min_l by lia.
  replace (Z.to_nat (0 + Z.of_nat (String.length d) + 1))
    with (String.length (d +:+ "/")) by lia.
  rewrite <- app_string_assoc. apply drop_chars_app.
Qed.

Lemma basename_no_slash p : Path.no_slash p = true -> Path.basename p = p.
Proof.
  intros Hp. unfold Path.basename, Path.rfind_slash, Path.slice_from.
  rewrite rfind_from_no_slash by done. by destruct p.
Qed.

(** X1. The base name of [d/n], for a name [n] without slash, is [n]:
    whatever the directory part, only the last component is kept. *)
Theorem basename_of_joined_path (d n : string) :
  Path.no_slash n = true -> Path.basename (d +:+ "/" +:+ n) = n.
Proof.
  intros Hn. unfold Path.basename, Path.rfind_slash.
  rewrite rfind_from_last_slash by done.
  unfold Path.slice_from, Py.slice_index.
  assert (String.length (d +:+ "/" +:+ n)
          = S (String.length d + String.length n)) as ->
    by (rewrite !length_app_string; simpl; lia).
  destruct (Z.ltb_spec (0 + Z.of_nat (String.length d) + 1) 0); [lia|].
  rewrite Z.min_l by lia.
  replace (Z.to_nat (0 + Z.of_nat (String.length d) + 1))
    with (String.length (d +:+ "/"))
    by (rewrite length_app_string; simpl; lia).
  rewrite <- app_string_assoc. apply drop_chars_app.
Qed.

(** X2. The base name of any path has no slash, the path is some
    directory prefix followed by it, the prefix being empty or ending in a
    slash; a path without slash is its own base name, and a path that ends
    in a slash has the empty base name. *)
Theorem basename_is_last_component (p : string) :
  Path.no_slash (Path.basename p) = true
  /\ (exists d, p = d +:+ Path.basename p
                /\ (d = "" \/ exists d', d = d' +:+ "/"))
  /\ (Path.no_slash p = true -> Path.basename p = p)
  /\ (forall d, p = d +:+ "/" -> Path.basename p = "").
Proof.
  split; [|split; [|split]].
  - destruct (last_slash_split p) as [Hp|(d & n & -> & Hn)].
    + by rewrite basename_no_slash.
    + by rewrite basename_split.
  - destruct (last_slash_split p) as [Hp|(d & n & -> & Hn)].
    + exists "". rewrite basename_no_slash by done. split; [done|]. by left.
    + exists (d +:+ "/"). rewrite basename_split by done. split.
      * by rewrite app_string_assoc.
      * right. by exists d.
  - apply basename_no_slash.
  - intros d ->. by apply (basename_split d "").
Qed.

End PathFacts.

(** ** Query: failures and what a query leaves behind *)

Section QueryFacts.
Context {BE : Backend}.
Implicit Types (w : World).

(** The places where a query can stop, and the state it leaves there. *)
Lemma query_db_phases question top_k w :
  query_db question top_k w =
  match embed_content question with
  | inl e => (inl e, w)
  | inr q_emb =>
      let w1 := advance w (client w) [EvQuery [q_emb] top_k] in
      match collection_query (collection w) [q_emb] top_k (client w) with
      | inl e => (inl e, w1)
      | inr r =>
          match first_of (dict_get (q_documents r) (Some [[]])) with
          | inl e => (inl e, w1)
          | inr docs =>
              match first_of (dict_get (q_metadatas r) (Some [[]])) with
              | inl e => (inl e, w1)
              | inr metadatas => (hits_from 0 docs metadatas, w1)
              end
          end
      end
  end.
Proof.
  unfold query_db, call_query, get_collection, emit, on_client, lift, bind, advance.
  simpl. destruct (embed_content question) as [e|q_emb]; [done|]. simpl.
  destruct (collection_query (collection w) [q_emb] top_k (client w)) as [e|r];
    [done|]. simpl.
  destruct (first_of (dict_get (q_documents r) (Some [[]]))) as [e|docs]; [done|].
  by destruct (first_of (dict_get (q_metadatas r) (Some [[]]))) as [e|metas].
Qed.

(** When embedding the question raises, [query_db] raises the same
    exception and nothing else happens: the store is not queried and the
    state is the one before the call. *)
Lemma query_db_embedding_failure question top_k w e :
  embed_content question = inl e ->
  query_db question top_k w = (inl e, w).
Proof. intros He. by rewrite query_db_phases, He. Qed.

(** When the store query raises, [query_db] raises the same exception;
    the query was issued once, with the embedded question and [top_k], and
    store and global collection are as before. *)
Lemma query_db_store_failure question top_k w q_emb e :
  embed_content question = inr q_emb ->
  collection_query (collection w) [q_emb] top_k (client w) = inl e ->
  query_db question top_k w
  = (inl e, advance w (client w) [EvQuery [q_emb] top_k]).
Proof. intros Hq He. by rewrite query_db_phases, Hq, He. Qed.

Lemma getitem_raises {A} (l : list A) (i : Z) e :
  Py.getitem l i = inl e -> e = IndexError "list index out of range".
Proof.
  unfold Py.getitem. intros H.
  destruct ((if (i <? 0)%Z then (i + Py.len l)%Z else i) <? 0)%Z;
    [by injection H|].
  destruct (l !! _); [done|by injection H].
Qed.

Lemma first_of_raises {A} (x : option (list A)) e :
  first_of x = inl e ->
  e = TypeError "'NoneType' object is not subscriptable"
  \/ e = IndexError "list index out of range".
Proof.
  destruct x as [l|]; simpl; intros H.
  - right. by apply getitem_raises in H.
  - left. by injection H.
Qed.

Lemma hits_from_raises i docs (metadatas : list (option Metadata)) e :
  hits_from i docs metadatas = inl e ->
  e = IndexError "list index out of range".
Proof.
  revert i. induction docs as [|doc docs IH]; intros i H; simpl in H; [done|].
  destruct (Py.getitem metadatas i) as [e0|entry] eqn:Hg; simpl in H.
  - injection H as <-. by apply getitem_raises in Hg.
  - destruct (hits_from (i + 1) docs metadatas) as [e1|hits] eqn:Hh; [|done].
    simpl in H. injection H as <-. by apply (IH _ Hh).
Qed.

(** X3. Where the exceptions of a query come from, and what they leave.
    An exception raised by [query_db] is the one raised by embedding the
    question, in which case the store was not queried and the state is
    unchanged; or else the question was embedded, the query was issued
    once, and the exception is the one the store raised or the [TypeError]
    or [IndexError] met while reading the answer. *)
Theorem query_db_exception_origin question top_k w e :
  (query_db question top_k w).1 = inl e ->
  (embed_content question = inl e /\ (query_db question top_k w).2 = w)
  \/ exists q_emb,
       embed_content question = inr q_emb
       /\ (query_db question top_k w).2
          = advance w (client w) [EvQuery [q_emb] top_k]
       /\ (collection_query (collection w) [q_emb] top_k (client w) = inl e
           \/ e = TypeError "'NoneType' object is not subscriptable"
           \/ e = IndexError "list index out of range").
Proof.
  rewrite query_db_phases.
  destruct (embed_content question) as [e0|q_emb]; simpl.
  { intros H. injection H as ->. by left. }
  intros H. right. exists q_emb. split; [done|].
  destruct (collection_query _ _ _ _) as [e1|r]; simpl in *.
  { injection H as ->. by auto. }
  destruct (first_of (dict_get (q_documents r) _)) as [e2|docs] eqn:Hd; simpl in *.
  { injection H as ->. split; [done|]. right. by apply first_of_raises in Hd. }
  destruct (first_of (dict_get (q_metadatas r) _)) as [e3|metas] eqn:Hm; simpl in *.
  { injection H as ->. split; [done|]. right. by apply first_of_raises in Hm. }
  split; [done|]. right. right. by apply hits_from_raises in H.
Qed.

(** X4. A query never writes: whatever it returns or raises, the store
    state and the global collection are unchanged, and the trace grows by
    at most the one query event, so no [add], delete or creation is
    issued. *)
Theorem query_db_read_only question top_k w :
  client (query_db question top_k w).2 = client w
  /\ collection (query_db question top_k w).2 = collection w
  /\ added (trace (query_db question top_k w).2) = added (trace w)
  /\ (trace (query_db question top_k w).2 = trace w
      \/ exists q_emb,
           embed_content question = inr q_emb
           /\ trace (query_db question top_k w).2
              = trace w ++ [EvQuery [q_emb] top_k]).
Proof.
  rewrite query_db_phases.
  destruct (embed_content question) as [e|q_emb]; [by auto|]. simpl.
  assert (added (trace w ++ [EvQuery [q_emb] top_k]) = added (trace w)) as Hadded.
  { unfold added. rewrite omap_app. simpl. by rewrite app_nil_r. }
  destruct (collection_query _ _ _ _) as [e|r]; simpl.
  { split; [done|]. split; [done|]. split; [done|]. right. by exists q_emb. }
  destruct (first_of (dict_get (q_documents r) _)) as [e|docs]; simpl.
  { split; [done|]. split; [done|]. split; [done|]. right. by exists q_emb. }
  destruct (first_of (dict_get (q_metadatas r) _)) as [e|metas]; simpl.
  { split; [done|]. split; [done|]. split; [done|]. right. by exists q_emb. }
  split; [done|]. split; [done|]. split; [done|]. right. by exists q_emb.
Qed.

Lemma getitem_out_of_range {A} (l : list A) (i : nat) :
  (length l <= i)%nat ->
  Py.getitem l (Z.of_nat i) = inl (IndexError "list index out of range").
Proof.
  intros Hi. unfold Py.getitem.
  assert ((Z.of_nat i <? 0)%Z = false) as -> by (apply Z.ltb_ge; lia).
  assert ((Z.of_nat i <? 0)%Z = false) as -> by (apply Z.ltb_ge; lia).
  rewrite Nat2Z.id. by rewrite (proj2 (lookup_ge_None l i) Hi).
Qed.

Lemma hits_from_short docs (i : nat) (metadatas : list (option Metadata)) :
  docs <> [] ->
  (length metadatas < i + length docs)%nat ->
  hits_from (Z.of_nat i) docs metadatas
  = inl (IndexError "list index out of range").
Proof.
  revert i. induction docs as [|doc docs IH]; intros i Hne Hlen; [done|].
  simpl in *.
  destruct (Nat.le_gt_cases (length metadatas) i) as [Hout|Hin].
  - by rewrite getitem_out_of_range.
  - destruct (lookup_lt_is_Some_2 metadatas i Hin) as [entry Hentry].
    rewrite (getitem_nat _ _ _ Hentry). simpl.
    replace (Z.of_nat i + 1)%Z with (Z.of_nat (S i)) by lia.
    rewrite IH; [done| |lia].
    intros ->. simpl in Hlen. lia.
Qed.

(** X5. When the store answers with fewer metadata entries than
    documents, [query_db] raises [IndexError] at [metadatas[i]] and returns
    no hit at all, not even those that had an entry. *)
Theorem query_db_short_metadatas question top_k w q_emb r docs metas :
  embed_content question = inr q_emb ->
  collection_query (collection w) [q_emb] top_k (client w) = inr r ->
  first_of (dict_get (q_documents r) (Some [[]])) = inr docs ->
  first_of (dict_get (q_metadatas r) (Some [[]])) = inr metas ->
  (length metas < length docs)%nat ->
  (query_db question top_k w).1 = inl (IndexError "list index out of range").
Proof.
  intros Hq Hr Hdocs Hmetas Hlen.
  rewrite query_db_phases, Hq, Hr, Hdocs, Hmetas. simpl.
  change 0%Z with (Z.of_nat 0). apply hits_from_short; [|simpl; lia].
  intros ->. simpl in Hlen. lia.
Qed.

(** X6. How the keys of the store's answer are read.  A missing
    ["documents"] key counts as no documents and gives the empty list of
    hits, when the metadata can be read; a ["documents"] or ["metadatas"]
    key bound to [None] raises [TypeError], and an empty outer list raises
    [IndexError], in the metadata case even when there is no document; a
    missing ["metadatas"] key with at least one document raises
    [IndexError]. *)
Theorem query_db_answer_keys question top_k w q_emb r :
  embed_content question = inr q_emb ->
  collection_query (collection w) [q_emb] top_k (client w) = inr r ->
  (q_documents r = Absent ->
   (q_metadatas r = Absent \/ exists ms rest, q_metadatas r = Value (ms :: rest)) ->
   (query_db question top_k w).1 = inr [])
  /\ (q_documents r = PyNone ->
      (query_db question top_k w).1
      = inl (TypeError "'NoneType' object is not subscriptable"))
  /\ (q_documents r = Value [] ->
      (query_db question top_k w).1 = inl (IndexError "list index out of range"))
  /\ (forall docs rest, q_documents r = Value (docs :: rest) ->
      q_metadatas r = PyNone ->
      (query_db question top_k w).1
      = inl (TypeError "'NoneType' object is not subscriptable"))
  /\ (forall docs rest, q_documents r = Value (docs :: rest) ->
      q_metadatas r = Value [] ->
      (query_db question top_k w).1 = inl (IndexError "list index out of range"))
  /\ (forall doc docs rest, q_documents r = Value ((doc :: docs) :: rest) ->
      q_metadatas r = Absent ->
      (query_db question top_k w).1 = inl (IndexError "list index out of range")).
Proof.
  intros Hq Hr. rewrite query_db_phases, Hq, Hr.
  split; [|split; [|split; [|split; [|split]]]].
  - intros -> [->|(ms & rest & ->)]; done.
  - by intros ->.
  - by intros ->.
  - by intros docs rest -> ->.
  - by intros docs rest -> ->.
  - by intros doc docs rest -> ->.
Qed.

End QueryFacts.

(** ** Ingestion: what a run does to the state in every outcome *)

Section IngestionFacts.
Context {BE : Backend}.
Implicit Types (df : DataFrame) (w : World).


(** The commit loop in every outcome: the calls that returned, the store
    they made, and at most one more call, the one that raised. *)
Lemma commit_loop_any args B starts w :
  exists done evs,
    collection (for_each starts (commit_body args B) w).2 = collection w
    /\ apply_adds (collection w) done (client w)
       = inr (client (for_each starts (commit_body args B) w).2)
    /\ trace (for_each starts (commit_body args B) w).2 = trace w ++ evs
    /\ forallb is_add_or_print evs = true
    /\ (((for_each starts (commit_body args B) w).1 = inr tt /\ added evs = done)
        \/ exists e a,
             (for_each starts (commit_body args B) w).1 = inl e
             /\ added evs = done ++ [a]
             /\ collection_add (collection w) a
                  (client (for_each starts (commit_body args B) w).2) = inl e).
Proof.
  revert w. induction starts as [|i starts IH]; intros w.
  - exists [], []. simpl. rewrite app_nil_r. by auto 10.
  - assert (for_each (i :: starts) (commit_body args B) w
            = match commit_body args B i w with
              | (inl e, w') => (inl e, w')
              | (inr _, w') => for_each starts (commit_body args B) w'
              end) as -> by reflexivity.
    destruct (collection_add (collection w) (args i) (client w)) as [e|c1] eqn:Hadd.
    + rewrite (commit_body_inl _ _ _ _ _ Hadd). simpl.
      exists [], [EvAdd (args i)]. simpl.
      split; [done|]. split; [done|]. split; [done|]. split; [done|].
      right. by exists e, (args i).
    + rewrite (commit_body_inr _ _ _ _ _ Hadd).
      destruct (IH (advance w c1 (body_events args B i)))
        as (done & evs & Hcoll & Happ & Htrace & Hquiet & Hout).
      exists (args i :: done), (body_events args B i ++ evs).
      simpl in *. rewrite Hadd. simpl.
      split; [done|]. split; [done|].
      split; [by rewrite Htrace, <- app_assoc|]. split; [done|].
      destruct Hout as [[Hr Hd]|(e & a & Hr & Hd & Hf)].
      * left. split; [done|]. unfold added in *. simpl. by rewrite Hd.
      * right. exists e, a. split; [done|]. split; [|done].
        unfold added in *. simpl. by rewrite Hd.
Qed.

(** X8. Whatever a run of [add_df_to_db_async] returns or raises, for
    any table and batch size: the global collection is the one it started
    with; its new events are only printed lines and [add] calls; every
    [add] call it issued returned, except possibly the last one, whose
    exception is then the one the run raises; and the store is exactly
    what the calls that returned made of the initial store. *)
Theorem ingestion_frame df s B w :
  let run := add_df_to_db_async df s B w in
  exists done evs,
    collection run.2 = collection w
    /\ trace run.2 = trace w ++ evs
    /\ forallb is_add_or_print evs = true
    /\ apply_adds (collection w) done (client w) = inr (client run.2)
    /\ (added evs = done
        \/ exists e a,
             run.1 = inl e /\ added evs = done ++ [a]
             /\ collection_add (collection w) a (client run.2) = inl e).
Proof.
  intros run. subst run. rewrite add_df_to_db_async_phases.
  destruct (batches (build_docs df) B) as [e|tasks].
  { exists [], []. simpl. rewrite app_nil_r. by auto 10. }
  destruct (gather tasks) as [e|rs].
  { exists [], [EvPrint (MsgStartEmbedding (length tasks))]. by auto 10. }
  destruct (Py.range 0 (Py.len (build_ids df s)) B) as [e|starts].
  { exists [], [EvPrint (MsgStartEmbedding (length tasks)); EvPrint MsgEmbeddingsDone].
    by auto 10. }
  cbv zeta.
  set (args := add_args _ _ _ _ _).
  set (w2 := advance w (client w) _).
  destruct (commit_loop_any args B starts w2)
    as (done & evs & Hcoll & Happ & Htrace & Hquiet & Hout).
  destruct (for_each starts (commit_body args B) w2) as [[e|[]] w3]; simpl in *.
  - exists done, ([EvPrint (MsgStartEmbedding (length tasks));
                    EvPrint MsgEmbeddingsDone] ++ evs).
    split; [done|]. split; [by rewrite Htrace, <- app_assoc|].
    split; [done|]. split; [done|].
    destruct Hout as [[Hr _]|(e' & a & Hr & Hd & Hf)]; [done|].
    right. exists e', a. split; [done|]. split; [|done].
    unfold added in *. simpl. exact Hd.
  - exists done, ([EvPrint (MsgStartEmbedding (length tasks));
                    EvPrint MsgEmbeddingsDone] ++ evs
                   ++ [EvPrint (MsgTotalAdded (length (build_docs df)) s)]).
    split; [done|].
    split; [by rewrite Htrace, <- !app_assoc|].
    split.
    { simpl. rewrite forallb_app, Hquiet. done. }
    split; [done|].
    destruct Hout as [[_ Hd]|(e' & a & Hr & _)]; [|done].
    left. unfold added in *. simpl. rewrite omap_app, Hd. simpl.
    by rewrite app_nil_r.
Qed.

(** X9. A run with a positive batch size that returns leaves this
    trace: the line with the number of embedding batches, the line that
    all embeddings are processed, then for each batch in order its [add]
    call followed by the line with its number, counted from 1, and last
    the line with the number of rows.  So every embedding is computed
    before the first [add], and the store is what the calls made of it. *)
Theorem returned_run_trace df s B w :
  (0 < B)%Z ->
  (add_df_to_db_async df s B w).1 = inr tt ->
  exists tasks rs calls,
    batches (build_docs df) B = inr tasks
    /\ gather tasks = inr rs
    /\ add_calls df s B (concat rs) = inr calls
    /\ length calls = length tasks
    /\ apply_adds (collection w) calls (client w)
       = inr (client (add_df_to_db_async df s B w).2)
    /\ trace (add_df_to_db_async df s B w).2
       = trace w
         ++ [EvPrint (MsgStartEmbedding (length tasks)); EvPrint MsgEmbeddingsDone]
         ++ commit_events 1 calls
         ++ [EvPrint (MsgTotalAdded (length (rows df)) s)].
Proof.
  intros HB Hret.
  destruct (add_df_to_db_async df s B w) as [r w'] eqn:Hrun.
  simpl in Hret. subst r. simpl.
  destruct (run_returned df s B w w' HB Hrun) as
    (tasks & rs & calls & Htasks & Hg & Hcalls & Happ & Hw').
  exists tasks, rs, calls.
  destruct (add_calls_up df s B (concat rs) HB) as (m & Hcalls' & Htasks' & _).
  split; [done|]. split; [done|]. split; [done|]. split.
  { rewrite Hcalls in Hcalls'. injection Hcalls' as ->.
    rewrite Htasks in Htasks'. injection Htasks' as ->.
    by rewrite length_fmap, length_seq, length_chunks. }
  split; [done|]. by rewrite Hw' at 1.
Qed.

End IngestionFacts.

(** ** Ingestion: what the calls carry *)

Section CallFacts.
Context {BE : Backend}.
Implicit Types (df : DataFrame) (w : World).

(** X10. With a positive batch size and a service that answers one
    embedding per text, the commit loop makes one [add] call per embedding
    batch, and call [k] carries exactly the texts of embedding batch [k]
    and exactly the embeddings the service returned for that batch, with
    ids and metadata of the same length. *)
Theorem add_call_matches_embedding_batch df s B tasks rs calls :
  (0 < B)%Z ->
  (forall k t r, embed_content_async k t = inr r -> length r = length t) ->
  batches (build_docs df) B = inr tasks ->
  gather tasks = inr rs ->
  add_calls df s B (concat rs) = inr calls ->
  length calls = length tasks
  /\ forall (k : nat) a, calls !! k = Some a ->
       tasks !! k = Some (a_documents a)
       /\ rs !! k = Some (a_embeddings a)
       /\ embed_content_async k (a_documents a) = inr (a_embeddings a)
       /\ length (a_ids a) = length (a_documents a)
       /\ length (a_metadatas a) = length (a_documents a)
       /\ length (a_embeddings a) = length (a_documents a).
Proof.
  intros HB Hcontract Htasks Hg Hcalls.
  destruct (add_calls_up df s B (concat rs) HB) as (m & Hcalls' & Htasks' & _ & Hup).
  rewrite Hcalls in Hcalls'. injection Hcalls' as ->.
  rewrite Htasks in Htasks'. injection Htasks' as ->.
  destruct (batches_shape (build_docs df) B HB) as (m' & Hm' & _ & _ & Hlow).
  rewrite Htasks in Hm'. injection Hm' as Hm'.
  assert (m' = m) as ->.
  { apply (f_equal length) in Hm'. by rewrite !length_chunks in Hm'. }
  clear Hm'. rewrite length_build_docs in Hlow.
  set (b := Z.to_nat B) in *. assert (0 < b)%nat as Hb by (unfold b; lia).
  set (docs := build_docs df) in *.
  assert (length docs = length (rows df)) as Hn by apply length_build_docs.
  pose proof (gather_total_length _ _ Hcontract Hg) as Htotal.
  rewrite concat_chunks in Htotal by lia.
  apply gather_from_inr in Hg as [Hrl Hall].
  split; [by rewrite length_fmap, length_seq, length_chunks|].
  intros k a Ha. rewrite list_lookup_fmap in Ha.
  destruct (seq 0 m !! k) as [k'|] eqn:Hk; [|done].
  apply lookup_seq in Hk as [-> Hk]. simpl in Ha. injection Ha as <-. simpl.
  pose proof (lookup_chunks b m docs k Hk) as Htk.
  destruct (Hall _ _ Htk) as (r & Hr & He). simpl in He.
  assert (length r = length (take b (drop (k * b) docs))) as Hlr
    by (by apply (Hcontract _ _ _ He)).
  assert (take b (drop (k * b) (concat rs)) = r) as Hpiece.
  { apply list_eq. intros j.
    destruct (Nat.lt_ge_cases j (length r)) as [Hj|Hj].
    - rewrite length_take, length_drop in Hlr.
      rewrite lookup_take_lt by lia. rewrite lookup_drop.
      apply lookup_concat_uniform; [|done|done].
      apply Forall_lookup_2. intros k1 r1 Hr1.
      apply lookup_take_Some in Hr1 as [Hr1 Hk1].
      assert (k1 < m)%nat as Hk1m by lia.
      destruct (Hall _ _ (lookup_chunks b m docs k1 Hk1m)) as (r1' & Hr1' & He1).
      simpl in He1. rewrite Hr1 in Hr1'. injection Hr1' as <-.
      rewrite (Hcontract _ _ _ He1), length_take, length_drop. nia.
    - rewrite (proj2 (lookup_ge_None r j) Hj).
      destruct (Nat.lt_ge_cases j b) as [Hjb|Hjb];
        [|by apply lookup_take_ge].
      rewrite lookup_take_lt by done. rewrite lookup_drop.
      apply lookup_ge_None. rewrite Htotal.
      rewrite length_take, length_drop in Hlr. lia. }
  rewrite Hpiece.
  split; [done|]. split; [done|]. split; [done|].
  rewrite !length_take, !length_drop.
  rewrite length_build_ids, length_build_metas, Hn.
  split; [done|]. split; [done|].
  by rewrite Hlr, length_take, length_drop, Hn.
Qed.




End CallFacts.

(** ** Reset followed by a query *)

Section ResetThenQuery.
Context {BE : Backend}.
Implicit Types (w : World).

(** The outcome of a query depends on the store and the global
    collection only, not on the events so far. *)
Lemma query_db_result_of_state question top_k w1 w2 :
  client w1 = client w2 -> collection w1 = collection w2 ->
  (query_db question top_k w1).1 = (query_db question top_k w2).1.
Proof.
  intros Hc Hh. rewrite !query_db_phases, Hc, Hh.
  destruct (embed_content question) as [e|q_emb]; [done|]. simpl.
  destruct (collection_query _ _ _ _) as [e|r]; [done|].
  destruct (first_of (dict_get (q_documents r) _)) as [e|docs]; [done|].
  by destruct (first_of (dict_get (q_metadatas r) _)) as [e|metas].
Qed.

(** [clear_db] returns, in one of three states. *)
Lemma clear_db_run w :
  clear_db w
  = (inr tt,
     match delete_collection "data_collection" (client w) with
     | inl e =>
         advance w (client w)
           [EvDelete "data_collection"; EvPrint (MsgResetFailed e)]
     | inr c1 =>
         match get_or_create_collection "data_collection" c1 with
         | inl e =>
             advance w c1
               [EvDelete "data_collection"; EvGetOrCreate "data_collection";
                EvPrint (MsgResetFailed e)]
         | inr (h, c2) =>
             {| client := c2; collection := h;
                trace := trace w ++ [EvDelete "data_collection";
                                     EvGetOrCreate "data_collection";
                                     EvPrint MsgResetDone] |}
         end
     end).
Proof.
  unfold clear_db, try_except, call_delete, call_get_or_create,
    bind, emit, on_client, set_collection, print, emit, advance. simpl.
  destruct (delete_collection "data_collection" (client w)) as [e|c1]; simpl.
  { by rewrite <- app_assoc. }
  destruct (get_or_create_collection "data_collection" c1) as [e|[h c2]]; simpl;
    by rewrite <- !app_assoc.
Qed.

(** X13. [clear_db()] followed by [query_db(question, top_k)].  After a
    reset whose delete raised, the query is answered as if no reset had
    been tried: by the old collection in the unchanged store.  After a
    reset that went through, it is answered by the collection that
    [get_or_create_collection] returned, in the store it left.  After a
    reset whose delete returned and whose creation raised, it goes to the
    old collection object in the store without the collection. *)
Theorem query_after_clear_db question top_k w :
  (forall e,
     delete_collection "data_collection" (client w) = inl e ->
     (bind clear_db (fun _ => query_db question top_k) w).1
     = (query_db question top_k w).1)
  /\ (forall c1 h c2,
        delete_collection "data_collection" (client w) = inr c1 ->
        get_or_create_collection "data_collection" c1 = inr (h, c2) ->
        (bind clear_db (fun _ => query_db question top_k) w).1
        = (query_db question top_k
             {| client := c2; collection := h; trace := trace w |}).1)
  /\ (forall c1 e,
        delete_collection "data_collection" (client w) = inr c1 ->
        get_or_create_collection "data_collection" c1 = inl e ->
        (bind clear_db (fun _ => query_db question top_k) w).1
        = (query_db question top_k
             {| client := c1; collection := collection w; trace := trace w |}).1).
Proof.
  assert (forall w', clear_db w = (inr tt, w') ->
            (bind clear_db (fun _ => query_db question top_k) w).1
            = (query_db question top_k w').1) as Hthen.
  { intros w' Hw'. unfold bind. by rewrite Hw'. }
  pose proof (clear_db_run w) as Hrun.
  split; [|split].
  - intros e He. rewrite He in Hrun. rewrite (Hthen _ Hrun).
    by apply query_db_result_of_state.
  - intros c1 h c2 Hd Hc. rewrite Hd, Hc in Hrun. rewrite (Hthen _ Hrun).
    by apply query_db_result_of_state.
  - intros c1 e Hd Hc. rewrite Hd, Hc in Hrun. rewrite (Hthen _ Hrun).
    by apply query_db_result_of_state.
Qed.

End ResetThenQuery.

(** ** CSV entry point *)

Section CsvFacts.
Context {BE : Backend}.
Variable read_csv : string -> Res DataFrame.
Implicit Types (w : World).

(** When reading the file raises, [add_csv_to_db] raises the same
    exception before anything else: no embedding, no [add] call, no
    printed line, and the state is the one before the call. *)
Lemma add_csv_to_db_read_failure file_path w e :
  read_csv file_path = inl e ->
  add_csv_to_db read_csv file_path w = (inl e, w).
Proof. intros Hread. unfold add_csv_to_db, bind, lift. by rewrite Hread. Qed.

(** X14. Ingesting the file [d/n], where the name [n] has no slash and
    the file reads as [N] data rows under the default index: when the run
    returns, it has issued [ceil(N/100)] [add] calls that all returned and
    carry the [N] ids [n_row0], ..., [n_row(N-1)] in this order.  The
    directory [d] leaves no mark, so files of the same name in different
    directories get the same ids. *)
Theorem add_csv_to_db_ids d n cols data w :
  Path.no_slash n = true ->
  read_csv (d +:+ "/" +:+ n) = inr (default_frame cols data) ->
  (add_csv_to_db read_csv (d +:+ "/" +:+ n) w).1 = inr tt ->
  let w' := (add_csv_to_db read_csv (d +:+ "/" +:+ n) w).2 in
  exists calls,
    added (trace w') = added (trace w) ++ calls
    /\ apply_adds (collection w) calls (client w) = inr (client w')
    /\ Py.len calls = ceil_div (Py.len data) 100
    /\ concat (a_ids <$> calls)
       = (fun i => n +:+ "_row" +:+ pretty i) <$> seqZ 0 (Py.len data).
Proof.
  intros Hn Hread Hret w'. subst w'.
  assert (add_csv_to_db read_csv (d +:+ "/" +:+ n) w
          = add_df_to_db_async (default_frame cols data) n 100 w) as Hrun.
  { unfold add_csv_to_db, bind, lift. rewrite Hread.
    by rewrite basename_split. }
  rewrite Hrun in *. set (df := default_frame cols data) in *.
  destruct (add_df_to_db_async df n 100 w) as [r w'] eqn:Hasync.
  simpl in Hret. subst r. simpl.
  destruct (run_returned df n 100 w w' ltac:(lia) Hasync) as
    (tasks & rs & calls & Htasks & Hg & Hcalls & Happ & Hw').
  destruct (add_calls_up df n 100 (concat rs) ltac:(lia))
    as (m & Hcalls' & _ & Hceil & Hup).
  rewrite Hcalls in Hcalls'. injection Hcalls' as ->.
  unfold df in Hceil, Hup. rewrite rows_default in Hceil, Hup.
  eexists. split.
  { rewrite Hw'. unfold advance. cbn [trace].
    rewrite !added_app, added_commit_events. simpl. by rewrite app_nil_r. }
  split; [done|]. split.
  { unfold Py.len. by rewrite length_fmap, length_seq. }
  rewrite concat_ids_of_calls
    by (rewrite length_build_ids; unfold df; by rewrite rows_default).
  apply build_ids_default.
Qed.

End CsvFacts.

(** ** Ingestion: one batch, and where exceptions come from *)

Section MoreIngestionFacts.
Context {BE : Backend}.
Implicit Types (df : DataFrame) (w : World).


(** X15. A table that fits in one batch (between 1 and [batch_size]
    rows) gives exactly one embedding batch, all the documents, and one
    [add] call carrying all ids, documents and metadata, with the first
    [batch_size] flattened embeddings. *)
Theorem single_batch_when_table_fits df s B :
  (0 < length (rows df))%nat ->
  (Z.of_nat (length (rows df)) <= B)%Z ->
  batches (build_docs df) B = inr [build_docs df]
  /\ forall embs,
       add_calls df s B embs
       = inr [ {| a_ids := build_ids df s;
                  a_documents := build_docs df;
                  a_embeddings := take (Z.to_nat B) embs;
                  a_metadatas := build_metas df s |} ].
Proof.
  intros Hpos Hfit. assert (0 < B)%Z as HB by lia.
  assert (ceil_div (Z.of_nat (length (rows df))) B = 1%Z) as Hone.
  { unfold ceil_div. symmetry.
    apply (Z.div_unique _ _ 1 (Z.of_nat (length (rows df)) - 1)); lia. }
  split.
  - rewrite batches_up by done. unfold Py.len.
    rewrite length_build_docs, Hone. unfold chunks. simpl.
    rewrite drop_0, take_ge; [done|]. rewrite length_build_docs. lia.
  - intros embs.
    destruct (add_calls_up df s B embs HB) as (m & -> & _ & Hm & _).
    rewrite Hone in Hm. assert (m = 1%nat) as -> by lia.
    simpl. unfold piece_call. simpl. rewrite !drop_0.
    rewrite (take_ge (build_ids df s)) by (rewrite length_build_ids; lia).
    rewrite (take_ge (build_docs df)) by (rewrite length_build_docs; lia).
    rewrite (take_ge (build_metas df s)) by (rewrite length_build_metas; lia).
    done.
Qed.


Lemma first_loop_int_labels cols s (rws : list (Z * list Scalar)) :
  first_loop cols s ((fun ir => (LInt ir.1, ir.2)) <$> rws)
  = inr ((fun ir => row_text cols ir.2) <$> rws,
         (fun ir => doc_id s ir.1) <$> rws,
         (fun ir => doc_meta s ir.1) <$> rws).
Proof.
  induction rws as [|[i row] rws IH]; [done|].
  rewrite !fmap_cons. cbn [first_loop int_of_label res_bind fst snd].
  by rewrite IH.
Qed.

(** On integer labels the run on a table under any index is the run of
    [add_df_to_db_async]. *)
Lemma any_index_on_int_labels df s B w :
  add_df_to_db_async_any_index (of_int_frame df) s B w
  = add_df_to_db_async df s B w.
Proof.
  unfold add_df_to_db_async_any_index, of_int_frame, bind, lift. simpl.
  rewrite first_loop_int_labels. done.
Qed.





End MoreIngestionFacts.

(** * Examples for the further properties *)

Section MoreWitnesses.
Local Open Scope Z_scope.

Lemma basename_of_joined_path_witness :
  Path.basename ("data" +:+ "/" +:+ "samples.csv") = "samples.csv".
Proof. apply (basename_of_joined_path "data" "samples.csv"). reflexivity. Defined.

Lemma query_db_exception_origin_witness :
  let BE := Stub.backend (inr 6) (inr Stub.short_answer) in
  let e := IndexError "list index out of range" in
  (@embed_content BE "text_1" = inl e
   /\ (query_db (BE := BE) "text_1" 3 Stub.start).2 = Stub.start)
  \/ exists q_emb,
       @embed_content BE "text_1" = inr q_emb
       /\ (query_db (BE := BE) "text_1" 3 Stub.start).2
          = advance (BE := BE) Stub.start tt [EvQuery [q_emb] 3]
       /\ (@collection_query BE tt [q_emb] 3 tt = inl e
           \/ e = TypeError "'NoneType' object is not subscriptable"
           \/ e = IndexError "list index out of range").
Proof.
  intros BE e.
  apply (query_db_exception_origin (BE := BE) "text_1" 3 Stub.start e).
  reflexivity.
Defined.

Lemma query_db_short_metadatas_witness :
  let BE := Stub.backend (inr 6) (inr Stub.short_answer) in
  (query_db (BE := BE) "text_1" 3 Stub.start).1
  = inl (IndexError "list index out of range").
Proof.
  intros BE.
  apply (query_db_short_metadatas (BE := BE) "text_1" 3 Stub.start 6
           Stub.short_answer ["d0"; "d1"] [None]);
    try reflexivity. simpl. lia.
Defined.

Lemma query_db_answer_keys_witness :
  let BE := Stub.backend (inr 6) (inr Stub.bare_answer) in
  (query_db (BE := BE) "text_1" 3 Stub.start).1 = inr [].
Proof.
  intros BE.
  destruct (query_db_answer_keys (BE := BE) "text_1" 3 Stub.start 6
              Stub.bare_answer eq_refl eq_refl) as (Hbare & _).
  apply Hbare; [reflexivity|]. by left.
Defined.


Lemma returned_run_trace_witness :
  let BE := Scenario.healthy in
  let w : WorldOf Fake.State (string * nat) Z :=
    Scenario.initial Scenario.never Scenario.never in
  exists tasks rs calls,
    batches (build_docs Scenario.df) 2 = inr tasks
    /\ gather tasks = inr rs
    /\ add_calls Scenario.df "s" 2 (concat rs) = inr calls
    /\ length calls = length tasks
    /\ apply_adds (collection w) calls (client w)
       = inr (client (add_df_to_db_async Scenario.df "s" 2 w).2)
    /\ trace (add_df_to_db_async Scenario.df "s" 2 w).2
       = trace w
         ++ [EvPrint (MsgStartEmbedding (length tasks)); EvPrint MsgEmbeddingsDone]
         ++ commit_events 1 calls
         ++ [EvPrint (MsgTotalAdded (length (rows Scenario.df)) "s")].
Proof.
  intros BE w.
  apply (returned_run_trace (BE := BE) Scenario.df "s" 2 w); [lia|].
  vm_compute. reflexivity.
Defined.

Lemma add_call_matches_embedding_batch_witness :
  let BE := Scenario.healthy in
  let calls := [Scenario.call 0; Scenario.call 1; Scenario.call 2] in
  length calls = length Scenario.tasks
  /\ forall (k : nat) a, calls !! k = Some a ->
       Scenario.tasks !! k = Some (a_documents a)
       /\ Scenario.results !! k = Some (a_embeddings a)
       /\ embed_content_async k (a_documents a) = inr (a_embeddings a)
       /\ length (a_ids a) = length (a_documents a)
       /\ length (a_metadatas a) = length (a_documents a)
       /\ length (a_embeddings a) = length (a_documents a).
Proof.
  intros BE calls.
  apply (add_call_matches_embedding_batch (BE := BE) Scenario.df "s" 2
           Scenario.tasks Scenario.results calls).
  - lia.
  - intros k t r Hr. simpl in Hr. injection Hr as <-. apply length_fmap.
  - vm_compute. reflexivity.
  - vm_compute. reflexivity.
  - vm_compute. reflexivity.
Defined.


Lemma add_csv_to_db_ids_witness :
  let BE := Scenario.healthy in
  let w : WorldOf Fake.State (string * nat) Z :=
    Scenario.initial Scenario.never Scenario.never in
  let w' := (add_csv_to_db Stub.read_csv ("data" +:+ "/" +:+ "samples.csv") w).2 in
  exists calls,
    added (trace w') = added (trace w) ++ calls
    /\ apply_adds (collection w) calls (client w) = inr (client w')
    /\ Py.len calls = ceil_div (Py.len (Fake.sample_rows 5)) 100
    /\ concat (a_ids <$> calls)
       = (fun i => "samples.csv" +:+ "_row" +:+ pretty i)
           <$> seqZ 0 (Py.len (Fake.sample_rows 5)).
Proof.
  intros BE w.
  apply (add_csv_to_db_ids (BE := BE) Stub.read_csv "data" "samples.csv"
           ["col1"; "col2"] (Fake.sample_rows 5) w).
  - reflexivity.
  - reflexivity.
  - vm_compute. reflexivity.
Defined.

Lemma single_batch_when_table_fits_witness :
  batches (build_docs Scenario.df) 100 = inr [build_docs Scenario.df].
Proof.
  destruct (single_batch_when_table_fits (BE := Scenario.healthy) Scenario.df "s" 100)
    as [Hone _].
  - vm_compute. lia.
  - vm_compute. discriminate.
  - exact Hone.
Defined.


End MoreWitnesses.
